(** * members/forms.py of tutti: form validation and the LDAP bind helper

    A shallow embedding of [src/members/forms.py].  The module is glue on top
    of Django's form layer and of an LDAP client, so the embedding has three
    layers:

    - a small model of the Python control flow the module uses (exceptions,
      [return] inside [try], [finally], falling off the end of a function);
    - the part of [django.forms] the module runs on ([Field.clean],
      [BaseForm.full_clean], [add_error], [is_valid]);
    - the functions and classes of [forms.py] themselves, in source order. *)

From stdpp Require Import base option list strings gmap.
From Stdlib Require Import Ascii.

(** ** Python values and exceptions *)

(** The values that travel through [cleaned_data]. *)
Inductive pyval : Type :=
  | PyNone
  | PyBool (b : bool)
  | PyStr (s : string)
  | PyList (l : list string)
  | PyQuerySet (pks : list string).

#[global] Instance pyval_eq_dec : EqDecision pyval.
Proof. solve_decision. Defined.

(** [django.core.exceptions.ValidationError(message, code=...)]. *)
Record ValidationError : Type := mkValidationError {
  message : string;
  code : option string
}.

#[global] Instance ValidationError_eq_dec : EqDecision ValidationError.
Proof. solve_decision. Defined.

(** The exception classes the module meets.  A [ValidationError] carries its
    [error_list]; [raise ValidationError(message, code=...)] carries the one
    error it is.  [LDAPInvalidCredentialsResult] has no subclass in ldap3, so
    [except LDAPInvalidCredentialsResult] matches that constructor alone;
    [OtherException] stands for an instance of any other class, named by its
    class. *)
Inductive exn : Type :=
  | EValidationError (error_list : list ValidationError)
  | KeyError (key : string)
  | LDAPInvalidCredentialsResult
  | OtherException (class_name : string).

#[global] Instance exn_eq_dec : EqDecision exn.
Proof. solve_decision. Defined.

(** Python's truth value of an object ([bool(v)], the test of [if] and [not]). *)
Definition truthy (v : pyval) : bool :=
  match v with
  | PyNone => false
  | PyBool b => b
  | PyStr s => negb (bool_decide (s = ""))
  | PyList l => negb (bool_decide (l = []))
  | PyQuerySet l => negb (bool_decide (l = []))
  end.

(** [v == s] for a string literal [s]: an object of another type is unequal. *)
Definition py_eq_str (v : pyval) (s : string) : bool :=
  match v with
  | PyStr s' => bool_decide (s' = s)
  | _ => false
  end.

(** ** Observable effects *)

(** What the module does to its collaborators: the directory connection and
    the local password check of the user model. *)
Inductive event : Type :=
  | EvGetConnection
  | EvBind (user : string) (password : pyval)
  | EvUnbind
  | EvCheckPassword (raw_password : pyval).

#[global] Instance event_eq_dec : EqDecision event.
Proof. solve_decision. Defined.

(** ** Expressions and statements *)

(** The value of an expression, or the exception it raised. *)
Inductive result (A : Type) : Type :=
  | Ok (a : A)
  | Exc (e : exn).
Arguments Ok {A} a.
Arguments Exc {A} e.

(** An expression is evaluated to a result and a trace of events. *)
Definition Py (A : Type) : Type := result A * list event.

#[global] Instance Py_ret : MRet Py := λ A a, (Ok a, []).

#[global] Instance Py_bind : MBind Py := λ A B f m,
  match m with
  | (Ok a, t) => let '(r, t') := f a in (r, t ++ t')
  | (Exc e, t) => (Exc e, t)
  end.

Definition raise {A : Type} (e : exn) : Py A := (Exc e, []).
Definition emit (ev : event) : Py unit := (Ok (), [ev]).

(** How a statement ends: it falls through, executes [return v], or raises. *)
Inductive completion : Type :=
  | Normal
  | Returned (v : pyval)
  | Raised (e : exn).

Definition Stmt : Type := completion * list event.

Definition pass : Stmt := (Normal, []).
Definition return_ (v : pyval) : Stmt := (Returned v, []).
Definition raise_ (e : exn) : Stmt := (Raised e, []).

(** [x = e; rest]: evaluate [e]; an exception ends the statement. *)
Definition let_ {A : Type} (e : Py A) (rest : A → Stmt) : Stmt :=
  match e with
  | (Ok a, t) => let '(c, t') := rest a in (c, t ++ t')
  | (Exc x, t) => (Raised x, t)
  end.

(** [s1; s2]: [s2] runs only when [s1] falls through. *)
Definition seq (s1 s2 : Stmt) : Stmt :=
  match s1 with
  | (Normal, t) => let '(c, t') := s2 in (c, t ++ t')
  | (c, t) => (c, t)
  end.

(** [try: body / except <class>: handler / finally: final].  [handlers e] is
    the body of the first [except] clause matching [e], if any.  The [finally]
    block always runs; when it falls through, the pending completion of the
    [try] or [except] block (a value being returned, an exception in flight)
    takes effect, otherwise its own completion replaces it. *)
Definition try_except_finally
    (body : Stmt) (handlers : exn → option Stmt) (final : Stmt) : Stmt :=
  let '(c1, t1) := body in
  let '(c2, t2) :=
    match c1 with
    | Raised e =>
        match handlers e with
        | Some h => let '(c, t) := h in (c, t1 ++ t)
        | None => (c1, t1)
        end
    | _ => (c1, t1)
    end in
  let '(c3, t3) := final in
  match c3 with
  | Normal => (c2, t2 ++ t3)
  | _ => (c3, t2 ++ t3)
  end.

(** A call: the value returned, [None] when the body falls off its end. *)
Definition call (body : Stmt) : Py pyval :=
  match body with
  | (Normal, t) => (Ok PyNone, t)
  | (Returned v, t) => (Ok v, t)
  | (Raised e, t) => (Exc e, t)
  end.

Notation "s1 ;;; s2" := (seq s1 s2) (at level 100, s2 at level 200, right associativity).

(** ** The directory service *)

(** The connection object of ldap3: the credentials it will bind with. *)
Record Connection : Type := mkConnection {
  conn_user : string;
  conn_password : pyval
}.

(** Modelled from the spec: [sync.ldap.get_connection] and the connection it
    returns are not in [src/]; the spec asks of the client that it can
    connect, bind and unbind and raise a distinguishable invalid-credentials
    condition.  A directory is what decides the outcome of those operations:
    [connect_error] is the exception opening the connection raises, if any,
    [service_user] and [service_password] the credentials the connection is
    created with, and [bind_error user password] the exception [bind] raises
    for the credentials set on the connection, if any.  [unbind] releases the
    connection and completes. *)
Record Directory : Type := mkDirectory {
  connect_error : option exn;
  service_user : string;
  service_password : pyval;
  bind_error : string → pyval → option exn
}.

Section ldap.
Context (ldap : Directory).

Definition get_connection : Py Connection :=
  emit EvGetConnection ≫= λ _,
  match connect_error ldap with
  | Some e => raise e
  | None => mret (mkConnection (service_user ldap) (service_password ldap))
  end.

Definition Connection_bind (conn : Connection) : Py unit :=
  emit (EvBind (conn_user conn) (conn_password conn)) ≫= λ _,
  match bind_error ldap (conn_user conn) (conn_password conn) with
  | Some e => raise e
  | None => mret ()
  end.

Definition Connection_unbind (conn : Connection) : Py unit :=
  emit EvUnbind.

(** [try_ldap_bind(user, password)], forms.py lines 27-38. *)
Definition try_ldap_bind (user : string) (password : pyval) : Py pyval :=
  call (
    let_ get_connection (λ conn,
    let conn := mkConnection user (conn_password conn) in
    let conn := mkConnection (conn_user conn) password in
    try_except_finally
      (let_ (Connection_bind conn) (λ _, pass))
      (λ e, match e with
            | LDAPInvalidCredentialsResult => Some (return_ (PyBool false))
            | _ => None
            end)
      (let_ (Connection_unbind conn) (λ _, pass)) ;;;
    return_ (PyBool true))).
End ldap.

(** ** django.forms: submitted data *)

(** The POST data of a bound form ([QueryDict]): every key holds the list of
    the values submitted under it. *)
Definition QueryDict : Type := gmap string (list string).

(** [data.get(name)]: the last value of the key; [None] when the key is
    absent or holds no value. *)
Definition QueryDict_get (data : QueryDict) (name : string) : option string :=
  data !! name ≫= last.

(** [data.getlist(name)]: all values of the key, [[]] when it is absent. *)
Definition QueryDict_getlist (data : QueryDict) (name : string) : list string :=
  default [] (data !! name).

(** ** django.forms: fields *)

(** A Python [str] is a sequence of code points.  A text is held here by its
    UTF-8 encoding, which is also what a string literal of this file denotes;
    two texts are equal when their encodings are.  [chr cp] is the text of the
    one code point [cp]. *)
Definition chr (cp : N) : string :=
  let byte (n : N) := ascii_of_N n in
  if (cp <? 0x80)%N then
    String (byte cp) ""
  else if (cp <? 0x800)%N then
    String (byte (0xC0 + cp / 0x40)%N) (String (byte (0x80 + cp mod 0x40)%N) "")
  else if (cp <? 0x10000)%N then
    String (byte (0xE0 + cp / 0x1000)%N)
      (String (byte (0x80 + cp / 0x40 mod 0x40)%N)
         (String (byte (0x80 + cp mod 0x40)%N) ""))
  else
    String (byte (0xF0 + cp / 0x40000)%N)
      (String (byte (0x80 + cp / 0x1000 mod 0x40)%N)
         (String (byte (0x80 + cp / 0x40 mod 0x40)%N)
            (String (byte (0x80 + cp mod 0x40)%N) ""))).

(** The bytes 10xxxxxx, which continue a character and never start one. *)
Definition is_continuation (a : ascii) : bool :=
  let n := N_of_ascii a in (0x80 <=? n)%N && (n <? 0xC0)%N.

(** [list(s)]: the characters of a text in order.  A character starts at a
    byte that is not a continuation byte and takes the continuation bytes
    that follow it. *)
Fixpoint chars (s : string) : list string :=
  match s with
  | EmptyString => []
  | String a s' =>
      match chars s' with
      | String b c :: cs =>
          if is_continuation b then String a (String b c) :: cs
          else String a "" :: String b c :: cs
      | cs => String a "" :: cs
      end
  end.

(** The code points Python counts as white space ([str.isspace], the
    characters [str.strip()] removes): the ASCII controls and the space, NEL,
    the no-break space and the Unicode space separators. *)
Definition whitespace : list N :=
  [0x09; 0x0A; 0x0B; 0x0C; 0x0D; 0x1C; 0x1D; 0x1E; 0x1F; 0x20; 0x85; 0xA0;
   0x1680; 0x2000; 0x2001; 0x2002; 0x2003; 0x2004; 0x2005; 0x2006; 0x2007;
   0x2008; 0x2009; 0x200A; 0x2028; 0x2029; 0x202F; 0x205F; 0x3000]%N.

(** [c.isspace()] of one character. *)
Definition is_space (c : string) : bool :=
  bool_decide (c ∈ chr <$> whitespace).

(** [str.lstrip()], on the characters of a text. *)
Fixpoint lstrip (cs : list string) : list string :=
  match cs with
  | c :: cs' => if is_space c then lstrip cs' else cs
  | [] => []
  end.

(** [str.strip()]: the text without the white space characters at its two
    ends. *)
Definition strip (s : string) : string :=
  String.concat "" (reverse (lstrip (reverse (lstrip (chars s))))).

Fixpoint contains_nul (s : string) : bool :=
  match s with
  | String a s' => Nat.eqb (nat_of_ascii a) 0 || contains_nul s'
  | EmptyString => false
  end.

(** A validator is called on the value and raises [ValidationError] or
    returns; [None] is the return. *)
Definition validator : Type := string → option ValidationError.

Definition ProhibitNullCharactersValidator : validator := λ s,
  if contains_nul s
  then Some (mkValidationError "Null characters are not allowed."
                               (Some "null_characters_not_allowed"))
  else None.

Definition error_required : ValidationError :=
  mkValidationError "This field is required." (Some "required").

Definition error_invalid_choice : ValidationError :=
  mkValidationError
    "Select a valid choice. %(value)s is not one of the available choices."
    (Some "invalid_choice").

Definition error_invalid_pk_value : ValidationError :=
  mkValidationError "“%(pk)s” is not a valid value." (Some "invalid_pk_value").

(** The field classes the forms of the module are built from.  Every field
    whose class the module does not name comes from a model that is not in
    [src/]; [ScalarField] covers those with a one-value widget (date, e-mail,
    number, typed choice, ...): [convert] is their [to_python] on a non-empty
    input. *)
Inductive FieldKind : Type :=
  | CharField (strip_ : bool) (validators : list validator)
  | ChoiceField (choices : list string)
  | MultipleChoiceField (choices : list string)
  | ModelMultipleChoiceField (queryset : list string) (valid_pk : string → bool)
  | ScalarField (convert : string → list ValidationError + pyval)
                (validators : list (pyval → option ValidationError)).

Record Field : Type := mkField {
  required : bool;
  kind : FieldKind
}.

(** [self.fields[f].required = value] on one field object. *)
Definition set_required (value : bool) (f : Field) : Field :=
  mkField value (kind f).

(** The outcome of [field.clean(value)]: the cleaned value, or the error list
    of the [ValidationError] it raised. *)
Definition cleaned : Type := list ValidationError + pyval.

(** [Field.run_validators]: every validator runs, the errors accumulate. *)
Definition run_validators {A : Type} (vs : list (A → option ValidationError)) (value : A)
    : list ValidationError :=
  omap (λ v, v value) vs.

(** [CharField.clean]: [to_python] (text, stripped, empty input as [""]),
    [validate] (required), [run_validators] (skipped on an empty value). *)
Definition CharField_clean (required_ strip_ : bool) (vs : list validator)
    (value : option string) : cleaned :=
  let value := default "" value in
  let value := if strip_ then strip value else value in
  if bool_decide (value = "") then
    if required_ then inl [error_required] else inr (PyStr "")
  else
    match run_validators (vs ++ [ProhibitNullCharactersValidator]) value with
    | [] => inr (PyStr value)
    | errs => inl errs
    end.

(** [ChoiceField.clean]: empty input is [""]; a non-empty value must be the
    key of a choice. *)
Definition ChoiceField_clean (required_ : bool) (choices : list string)
    (value : option string) : cleaned :=
  let value := default "" value in
  if bool_decide (value = "") then
    if required_ then inl [error_required] else inr (PyStr "")
  else if bool_decide (value ∈ choices) then inr (PyStr value)
  else inl [error_invalid_choice].

(** [MultipleChoiceField.clean]: the list of the submitted values; required
    means non-empty; every value must be the key of a choice. *)
Definition MultipleChoiceField_clean (required_ : bool) (choices : list string)
    (value : list string) : cleaned :=
  if bool_decide (value = []) then
    if required_ then inl [error_required] else inr (PyList [])
  else if bool_decide (Forall (λ v, v ∈ choices) value) then inr (PyList value)
  else inl [error_invalid_choice].

(** [ModelMultipleChoiceField.clean]: an empty selection is an error when the
    field is required and [queryset.none()] otherwise; a selection must name
    objects of the queryset by primary key. *)
Definition ModelMultipleChoiceField_clean (required_ : bool) (queryset : list string)
    (valid_pk : string → bool) (value : list string) : cleaned :=
  if bool_decide (value = []) then
    if required_ then inl [error_required] else inr (PyQuerySet [])
  else if negb (forallb valid_pk value) then inl [error_invalid_pk_value]
  else if bool_decide (Forall (λ v, v ∈ queryset) value)
  then inr (PyQuerySet (filter (λ pk, pk ∈ value) queryset))
  else inl [error_invalid_choice].

(** [Field.clean] of the remaining one-value fields: empty input stays the
    empty value [None]. *)
Definition ScalarField_clean (required_ : bool)
    (convert : string → list ValidationError + pyval)
    (vs : list (pyval → option ValidationError)) (value : option string) : cleaned :=
  let value := default "" value in
  if bool_decide (value = "") then
    if required_ then inl [error_required] else inr PyNone
  else
    match convert value with
    | inl errs => inl errs
    | inr v =>
        match run_validators vs v with
        | [] => inr v
        | errs => inl errs
        end
    end.

(** [field.clean(field.widget.value_from_datadict(data, files, name))]: the
    widget of a one-value field reads [data.get(name)], the widget of a
    multiple-choice field reads [data.getlist(name)]. *)
Definition Field_clean (f : Field) (data : QueryDict) (name : string) : cleaned :=
  match kind f with
  | CharField strip_ vs => CharField_clean (required f) strip_ vs (QueryDict_get data name)
  | ChoiceField choices => ChoiceField_clean (required f) choices (QueryDict_get data name)
  | MultipleChoiceField choices =>
      MultipleChoiceField_clean (required f) choices (QueryDict_getlist data name)
  | ModelMultipleChoiceField queryset valid_pk =>
      ModelMultipleChoiceField_clean (required f) queryset valid_pk (QueryDict_getlist data name)
  | ScalarField convert vs => ScalarField_clean (required f) convert vs (QueryDict_get data name)
  end.

(** ** django.forms: the form and its validation *)

(** The state [full_clean] builds on the form instance. *)
Record FormState : Type := mkFormState {
  cleaned_data : gmap string pyval;
  errors : gmap string (list ValidationError)
}.

Definition NON_FIELD_ERRORS : string := "__all__".

(** [self.cleaned_data[name]]: a missing key raises [KeyError]. *)
Definition getitem (d : gmap string pyval) (name : string) : Py pyval :=
  match d !! name with
  | Some v => mret v
  | None => raise (KeyError name)
  end.

(** [self.cleaned_data.get(name)]. *)
Definition dict_get (d : gmap string pyval) (name : string) : pyval :=
  default PyNone (d !! name).

(** [BaseForm.add_error(field, error)]: the errors are appended to the list of
    the field ([None]: of the form), and the field leaves [cleaned_data]. *)
Definition add_error (field : option string) (errs : list ValidationError)
    (self : FormState) : FormState :=
  let key := default NON_FIELD_ERRORS field in
  mkFormState (delete key (cleaned_data self))
              (<[key := default [] (errors self !! key) ++ errs]> (errors self)).

(** A form class: its fields in order, its [clean_<name>] methods, its
    [clean] (the state it leaves and the dictionary it returns, if any) and
    its [_post_clean]. *)
Record Form : Type := mkForm {
  fields : list (string * Field);
  clean_name : string → option (FormState → Py pyval);
  clean : FormState → Py (FormState * option (gmap string pyval));
  post_clean : FormState → FormState
}.

(** One round of the loop of [BaseForm._clean_fields]: the field's own
    [clean], then the form's [clean_<name>] when it has one; a
    [ValidationError] of either becomes an error of the field, any other
    exception propagates. *)
Definition clean_field (form : Form) (data : QueryDict) (self : FormState)
    (item : string * Field) : Py FormState :=
  let '(name, field) := item in
  match Field_clean field data name with
  | inl errs => mret (add_error (Some name) errs self)
  | inr value =>
      let self := mkFormState (<[name := value]> (cleaned_data self)) (errors self) in
      match clean_name form name with
      | None => mret self
      | Some method =>
          match method self with
          | (Ok value, t) =>
              (Ok (mkFormState (<[name := value]> (cleaned_data self)) (errors self)), t)
          | (Exc (EValidationError errs), t) =>
              (Ok (add_error (Some name) errs self), t)
          | (Exc e, t) => (Exc e, t)
          end
      end
  end.

(** [for x in xs: self = body(self, x)], stopping at the first exception. *)
Fixpoint for_ {A S : Type} (xs : list A) (body : S → A → Py S) (self : S) : Py S :=
  match xs with
  | [] => mret self
  | x :: xs' => body self x ≫= for_ xs' body
  end.

Definition BaseForm_clean_fields (form : Form) (data : QueryDict)
    (self : FormState) : Py FormState :=
  for_ (fields form) (clean_field form data) self.

(** [BaseForm._clean_form]: only a [ValidationError] of [clean] is caught.
    (No [clean] of this module raises one, so what [clean] had written to the
    form before raising it is not kept.) *)
Definition BaseForm_clean_form (form : Form) (self : FormState) : Py FormState :=
  match clean form self with
  | (Ok (self, Some cleaned_data), t) => (Ok (mkFormState cleaned_data (errors self)), t)
  | (Ok (self, None), t) => (Ok self, t)
  | (Exc (EValidationError errs), t) => (Ok (add_error None errs self), t)
  | (Exc e, t) => (Exc e, t)
  end.

(** [BaseForm.full_clean] of a bound form. *)
Definition BaseForm_full_clean (form : Form) (data : QueryDict) : Py FormState :=
  BaseForm_clean_fields form data (mkFormState ∅ ∅) ≫= λ self,
  BaseForm_clean_form form self ≫= λ self,
  mret (post_clean form self).

(** [BaseForm.is_valid] of a bound form: [not self.errors]. *)
Definition BaseForm_is_valid (form : Form) (data : QueryDict) : Py bool :=
  BaseForm_full_clean form data ≫= λ self,
  mret (bool_decide (errors self = ∅)).

(** [BaseForm.clean]: [return self.cleaned_data]. *)
Definition BaseForm_clean (self : FormState) : Py (FormState * option (gmap string pyval)) :=
  mret (self, Some (cleaned_data self)).

(** [BaseForm._post_clean]: [pass]. *)
Definition BaseForm_post_clean (self : FormState) : FormState := self.

(** [BaseModelForm._post_clean]: the instance is built from [cleaned_data] and
    validated by its model; the errors of the model are added to the form.
    [model_errors] is that validation, of a model that is not in [src/]. *)
Definition ModelForm_post_clean
    (model_errors : gmap string pyval → list (option string * list ValidationError))
    (self : FormState) : FormState :=
  foldl (λ self e, add_error e.1 e.2 self) self (model_errors (cleaned_data self)).

(** The fields of a form, updated at one name ([self.fields[name] = ...] and
    [self.fields[name].attribute = ...] keep the position of the name). *)
Definition update_field (name : string) (f : Field → Field)
    (fs : list (string * Field)) : list (string * Field) :=
  (λ item, if bool_decide (item.1 = name) then (item.1, f item.2) else item) <$> fs.

(** ** The collaborators of the module *)

(** [members.models] is not in [src/].  Of its classes the forms use: the
    form field a model gives for each of its fields ([formfield]), the errors
    the validation of a model instance reports to [_post_clean], the format
    of an instrument's primary key, the username validator, and the error
    [Person.validate_person_id_unique] raises. *)
Record Models : Type := mkModels {
  Person_formfield : string → Field;
  Person_errors : gmap string pyval → list (option string * list ValidationError);
  Person_not_unique : ValidationError;
  MembershipRequest_formfield : string → Field;
  MembershipRequest_errors : gmap string pyval → list (option string * list ValidationError);
  Instrument_valid_pk : string → bool;
  UsernameValidator : validator
}.

(** The rows of the database the forms query. *)
Record Database : Type := mkDatabase {
  User_usernames : list string;
  Person_person_ids : list string;
  Instrument_pks : list string
}.

(** The account of [self.user]. *)
Record User : Type := mkUser {
  username : string;
  password : string
}.

(** [User.objects.filter(username=username).exists()]. *)
Definition User_exists (db : Database) (username : pyval) : bool :=
  match username with
  | PyStr s => bool_decide (s ∈ User_usernames db)
  | _ => false
  end.

(** [Person.objects.filter(person_id=person_id).exists()]. *)
Definition Person_exists (db : Database) (person_id : pyval) : bool :=
  match person_id with
  | PyStr s => bool_decide (s ∈ Person_person_ids db)
  | _ => false
  end.

(** Modelled from the spec: [Person.validate_person_id_unique] is not in
    [src/]; the spec calls it a model-level validator that checks the
    person-id for uniqueness among the existing records and is expected to
    raise if it is already used.  A validator raises [ValidationError]. *)
Definition Person_validate_person_id_unique (models : Models) (db : Database)
    (person_id : pyval) : Py unit :=
  if Person_exists db person_id
  then raise (EValidationError [Person_not_unique models])
  else mret ().

(** [ModelForm]: the fields of the form are those of [Meta.fields], in that
    order; a field declared on the class replaces the one of the model, and
    the declared fields that [Meta.fields] does not name follow. *)
Definition ModelForm_fields (formfield : string → Field) (meta_fields : list string)
    (declared : list (string * Field)) : list (string * Field) :=
  ((λ name, (name, default (formfield name)
                     (list_to_map (M := gmap string Field) declared !! name)))
     <$> meta_fields)
  ++ filter (λ item, item.1 ∉ meta_fields) declared.

(** ** ProfileForm, forms.py lines 11-24 *)

Definition ProfileForm_Meta_fields : list string :=
  ["email"; "phone_number"; "street"; "postal_code"; "city"; "country";
   "preferred_language"].

(** [ProfileForm.__init__]: the help text of [email] is presentation and not
    modelled; the loop marks the seven fields required. *)
Definition ProfileForm_init (models : Models) : list (string * Field) :=
  let fields := ModelForm_fields (Person_formfield models) ProfileForm_Meta_fields [] in
  foldl (λ fields f, update_field f (set_required true) fields) fields
    ["email"; "phone_number"; "street"; "postal_code"; "city"; "country";
     "preferred_language"].

Definition ProfileForm (models : Models) : Form :=
  mkForm (ProfileForm_init models) (λ _, None) BaseForm_clean
         (ModelForm_post_clean (Person_errors models)).

(** ** MyPasswordChangeForm, forms.py lines 41-57 *)

Definition password_incorrect : ValidationError :=
  mkValidationError "Your old password was entered incorrectly. Please enter it again."
                    (Some "password_incorrect").

Definition password_mismatch : ValidationError :=
  mkValidationError "The two password fields didn’t match." (Some "password_mismatch").

(** [user.check_password(raw_password)]: the comparison of the submitted
    password with the stored hash; [hasher] is
    [django.contrib.auth.hashers.check_password]. *)
Definition User_check_password (hasher : pyval → string → bool) (user : User)
    (raw_password : pyval) : Py bool :=
  emit (EvCheckPassword raw_password) ≫= λ _,
  mret (hasher raw_password (password user)).

(** [PasswordChangeForm.clean_old_password] of django.contrib.auth. *)
Definition PasswordChangeForm_clean_old_password (hasher : pyval → string → bool)
    (user : User) (self : FormState) : Py pyval :=
  call (
    let_ (getitem (cleaned_data self) "old_password") (λ old_password,
    let_ (User_check_password hasher user old_password) (λ ok,
    (if negb ok then raise_ (EValidationError [password_incorrect]) else pass) ;;;
    return_ old_password))).

(** [SetPasswordForm.clean_new_password2] of django.contrib.auth;
    [password_validators] is [password_validation.validate_password] for this
    user: the errors it raises, none when it returns. *)
Definition SetPasswordForm_clean_new_password2
    (password_validators : pyval → list ValidationError) (self : FormState) : Py pyval :=
  call (
    let password1 := dict_get (cleaned_data self) "new_password1" in
    let password2 := dict_get (cleaned_data self) "new_password2" in
    (if truthy password1 && truthy password2 && negb (bool_decide (password1 = password2))
     then raise_ (EValidationError [password_mismatch]) else pass) ;;;
    (match password_validators password2 with
     | [] => pass
     | errs => raise_ (EValidationError errs)
     end) ;;;
    return_ password2).

(** [MyPasswordChangeForm.clean_old_password]. *)
Definition clean_old_password (ldap : Directory) (hasher : pyval → string → bool)
    (user : User) (self : FormState) : Py pyval :=
  call (
    if bool_decide (password user = "invalid") then
      let_ (getitem (cleaned_data self) "old_password") (λ old_password,
      let ldap_user := "uid=" +:+ username user +:+ ",ou=people,dc=esmgquadrivium,dc=nl" in
      let_ (try_ldap_bind ldap ldap_user old_password) (λ bound,
      (if negb (truthy bound)
       then raise_ (EValidationError [password_incorrect])
       else pass) ;;;
      return_ old_password))
    else
      let_ (PasswordChangeForm_clean_old_password hasher user self) return_).

(** [PasswordChangeForm] of django.contrib.auth, the base class: the three
    password fields in its [field_order], none of them stripped, all
    required; the old password is compared locally. *)
Definition PasswordChangeForm (hasher : pyval → string → bool)
    (password_validators : pyval → list ValidationError) (user : User) : Form :=
  mkForm
    [("old_password", mkField true (CharField false []));
     ("new_password1", mkField true (CharField false []));
     ("new_password2", mkField true (CharField false []))]
    (λ name,
       if bool_decide (name = "old_password")
       then Some (PasswordChangeForm_clean_old_password hasher user)
       else if bool_decide (name = "new_password2")
       then Some (SetPasswordForm_clean_new_password2 password_validators)
       else None)
    BaseForm_clean
    BaseForm_post_clean.

(** A subclass that defines [clean_<name>] anew and inherits the rest. *)
Definition override_clean_name (base : Form) (name : string)
    (method : FormState → Py pyval) : Form :=
  mkForm (fields base)
         (λ n, if bool_decide (n = name) then Some method else clean_name base n)
         (clean base)
         (post_clean base).

(** [class MyPasswordChangeForm(PasswordChangeForm)]. *)
Definition MyPasswordChangeForm (ldap : Directory) (hasher : pyval → string → bool)
    (password_validators : pyval → list ValidationError) (user : User) : Form :=
  override_clean_name (PasswordChangeForm hasher password_validators user)
    "old_password" (clean_old_password ldap hasher user).

(** ** SubscribeForm, forms.py lines 60-128 *)

Definition SubscribeForm_Meta_fields : list string :=
  ["first_name"; "last_name"; "initials"; "email"; "phone_number"; "street";
   "postal_code"; "city"; "country"; "gender"; "date_of_birth";
   "preferred_language"; "field_of_study"; "is_student"; "iban";
   "tue_card_number"; "remarks"; "sub_association"; "instruments";
   "photo_video_consent_external_group"; "photo_video_consent_external";
   "photo_video_consent_internal"; "ensure_subscribe"; "add_to_chats"].

Definition SubscribeForm_Meta_required : list string :=
  ["first_name"; "last_name"; "initials"; "email"; "phone_number"; "street";
   "postal_code"; "city"; "country"; "gender"; "date_of_birth";
   "preferred_language"; "is_student"; "instruments";
   "photo_video_consent_external_group"; "photo_video_consent_external";
   "photo_video_consent_internal"; "ensure_subscribe"; "add_to_chats"].

Definition SubscribeForm_Meta_boolean_choices : list string :=
  ["photo_video_consent_external_group"; "photo_video_consent_external";
   "photo_video_consent_internal"; "is_student"].

(** The fields declared on the class: two text fields shown as radio buttons,
    two groups of one checkbox each.  A declared field is required unless it
    says otherwise. *)
Definition SubscribeForm_declared_fields : list (string * Field) :=
  [("preferred_language", mkField true (CharField true []));
   ("gender", mkField true (CharField true []));
   ("add_to_chats", mkField true (MultipleChoiceField ["True"]));
   ("ensure_subscribe", mkField true (MultipleChoiceField ["True"]))].

(** [SubscribeForm.populate_boolean_fields]: every boolean choice becomes a
    choice between "Yes" and "No" (labels and help texts are presentation). *)
Definition populate_boolean_fields (fields : list (string * Field)) : list (string * Field) :=
  foldl (λ fields field,
           update_field field (λ _, mkField true (ChoiceField ["Yes"; "No"])) fields)
        fields SubscribeForm_Meta_boolean_choices.

(** [SubscribeForm.__init__]; the input format of [date_of_birth] is part of
    that field's [convert]. *)
Definition SubscribeForm_init (models : Models) : list (string * Field) :=
  let fields :=
    ModelForm_fields (MembershipRequest_formfield models) SubscribeForm_Meta_fields
                     SubscribeForm_declared_fields in
  let fields := populate_boolean_fields fields in
  foldl (λ fields field, update_field field (set_required true) fields) fields
        SubscribeForm_Meta_required.

(** [SubscribeForm.clean]: the loop reads and rewrites [self.cleaned_data] in
    place, then [ModelForm.clean] returns that dictionary. *)
Definition SubscribeForm_clean (self : FormState)
    : Py (FormState * option (gmap string pyval)) :=
  for_ SubscribeForm_Meta_boolean_choices
       (λ self field,
          getitem (cleaned_data self) field ≫= λ value,
          mret (mkFormState (<[field := PyBool (py_eq_str value "Yes")]> (cleaned_data self))
                            (errors self)))
       self ≫= BaseForm_clean.

Definition SubscribeForm (models : Models) : Form :=
  mkForm (SubscribeForm_init models) (λ _, None) SubscribeForm_clean
         (ModelForm_post_clean (MembershipRequest_errors models)).

(** ** ProcessMembershipRequestForm, forms.py lines 131-145 *)

Definition username_exists : ValidationError :=
  mkValidationError
    "A user with this username already exists. Please provide an unused username."
    None.

(** [clean_username]: raises when the username is taken and otherwise falls
    off its end. *)
Definition clean_username (db : Database) (self : FormState) : Py pyval :=
  call (
    let_ (getitem (cleaned_data self) "username") (λ username,
    if User_exists db username
    then raise_ (EValidationError [username_exists])
    else pass)).

(** [clean_person_id]: calls the validator of the model and falls off its
    end. *)
Definition clean_person_id (models : Models) (db : Database) (self : FormState) : Py pyval :=
  call (
    let_ (getitem (cleaned_data self) "person_id") (λ person_id,
    let_ (Person_validate_person_id_unique models db person_id) (λ _, pass))).

Definition ProcessMembershipRequestForm (models : Models) (db : Database) : Form :=
  mkForm
    [("username", mkField true (CharField true [UsernameValidator models]));
     ("person_id", mkField true (CharField true []));
     ("instruments",
      mkField false (ModelMultipleChoiceField (Instrument_pks db) (Instrument_valid_pk models)))]
    (λ name,
       if bool_decide (name = "username") then Some (clean_username db)
       else if bool_decide (name = "person_id") then Some (clean_person_id models db)
       else None)
    BaseForm_clean
    BaseForm_post_clean.

(** ** Vocabulary of the properties *)

(** The events of the directory service. *)
Definition is_ldap_event (ev : event) : bool :=
  match ev with
  | EvGetConnection | EvBind _ _ | EvUnbind => true
  | EvCheckPassword _ => false
  end.

Definition is_check_password (ev : event) : bool :=
  match ev with
  | EvCheckPassword _ => true
  | _ => false
  end.

(** How often the connection was released in a trace. *)
Definition unbind_count (t : list event) : nat :=
  length (filter (λ ev, ev = EvUnbind) t).

(** Nothing was submitted for a field: its widget reads an empty value from
    the data (no value or the empty text for a one-value widget, no value at
    all for a multiple-choice widget). *)
Definition unanswered (f : Field) (data : QueryDict) (name : string) : Prop :=
  match kind f with
  | CharField _ _ | ChoiceField _ | ScalarField _ _ =>
      QueryDict_get data name = None ∨ QueryDict_get data name = Some ""
  | MultipleChoiceField _ | ModelMultipleChoiceField _ _ =>
      QueryDict_getlist data name = []
  end.

(** The text of a sequence of code points ([''.join(map(chr, cps))]), and
    the code points a [str] can hold. *)
Definition text (cps : list N) : string := String.concat "" (chr <$> cps).

Definition is_code_point (cp : N) : Prop := (cp < 0x110000)%N.

(** [str.strip()] as Python tells it, on the sequence of code points: the
    white space code points at the two ends go.  [strip] is compared with it
    below. *)
Fixpoint lstrip_code_points (cps : list N) : list N :=
  match cps with
  | cp :: cps' => if bool_decide (cp ∈ whitespace) then lstrip_code_points cps' else cps
  | [] => []
  end.

Definition strip_code_points (cps : list N) : list N :=
  reverse (lstrip_code_points (reverse (lstrip_code_points cps))).

(** A run of continuation bytes; a text that starts at the start of a
    character. *)
Fixpoint all_continuation (s : string) : bool :=
  match s with
  | String a s' => is_continuation a && all_continuation s'
  | EmptyString => true
  end.

Definition starts_character (s : string) : bool :=
  match s with
  | String a _ => negb (is_continuation a)
  | EmptyString => true
  end.

(** The field of a form under a name. *)
Definition form_field (form : Form) (name : string) : option Field :=
  list_to_map (M := gmap string Field) (fields form) !! name.

(** The round of [_clean_fields] for a field without a [clean_<name>]
    method: the cleaned value is stored, or the errors are recorded. *)
Definition own_clean_round (data : QueryDict) (self : FormState)
    (item : string * Field) : FormState :=
  match Field_clean item.2 data item.1 with
  | inl errs => add_error (Some item.1) errs self
  | inr value => mkFormState (<[item.1 := value]> (cleaned_data self)) (errors self)
  end.

(** ** Sample data *)

(** A site whose models give optional text fields and report no error of
    their own. *)
Definition sample_models : Models :=
  mkModels
    (λ _, mkField false (CharField true []))
    (λ _, [])
    (mkValidationError "Person ID is already in use." None)
    (λ _, mkField false (CharField true []))
    (λ _, [])
    (λ _, true)
    (λ _, None).

Definition sample_db : Database :=
  mkDatabase ["alice"] ["1001"] ["1"; "2"].

(** A complete subscription. *)
Definition sample_subscription : QueryDict :=
  list_to_map
    [("first_name", ["Ada"]); ("last_name", ["Lovelace"]); ("initials", ["A."]);
     ("email", ["ada@example.org"]); ("phone_number", ["0401234567"]);
     ("street", ["Kerkstraat 1"]); ("postal_code", ["5611AA"]);
     ("city", ["Eindhoven"]); ("country", ["NL"]); ("gender", ["female"]);
     ("date_of_birth", ["10-12-1995"]); ("preferred_language", ["en"]);
     ("is_student", ["Yes"]); ("instruments", ["1"]);
     ("photo_video_consent_external_group", ["No"]);
     ("photo_video_consent_external", ["Yes"]);
     ("photo_video_consent_internal", ["No"]);
     ("ensure_subscribe", ["True"]); ("add_to_chats", ["True"])].

(** The form state a validation run leaves, for a run that completes. *)
Definition state_of (run : Py FormState) : FormState :=
  match fst run with
  | Ok self => self
  | Exc _ => mkFormState ∅ ∅
  end.

(** A subscription that leaves [is_student] unanswered, and one that leaves
    the checkbox [add_to_chats] unchecked. *)
Definition sample_subscription_unanswered : QueryDict :=
  delete "is_student" sample_subscription.

Definition sample_subscription_unchecked : QueryDict :=
  delete "add_to_chats" sample_subscription.

(** A subscription that does both. *)
Definition sample_subscription_unchecked_unanswered : QueryDict :=
  delete "add_to_chats" sample_subscription_unanswered.

(** A profile submitted without an e-mail address. *)
Definition sample_profile : QueryDict :=
  list_to_map
    [("phone_number", ["0401234567"]); ("street", ["Kerkstraat 1"]);
     ("postal_code", ["5611AA"]); ("city", ["Eindhoven"]); ("country", ["NL"]);
     ("preferred_language", ["en"])].

(** Membership requests: a fresh one without instruments, one for a username
    that is taken, one for a person-id that is used. *)
Definition sample_request : QueryDict :=
  list_to_map [("username", ["bob"]); ("person_id", ["1002"])].

Definition sample_request_taken : QueryDict :=
  list_to_map [("username", [" alice "]); ("person_id", ["1002"]); ("instruments", ["1"])].

Definition sample_request_used : QueryDict :=
  list_to_map [("username", ["bob"]); ("person_id", ["1001"]); ("instruments", ["2"])].

(** Membership requests written with characters outside ASCII: a username
    that ends in an accented letter and is taken, a taken username followed
    by a no-break space, a used person-id followed by an em space. *)
Definition sample_db_accented : Database :=
  mkDatabase ["voilà"] ["1001"] ["1"; "2"].

Definition sample_request_accented : QueryDict :=
  list_to_map [("username", ["voilà"]); ("person_id", ["1002"])].

Definition sample_request_no_break_space : QueryDict :=
  list_to_map [("username", ["alice" +:+ chr 0xA0]); ("person_id", ["1002"])].

Definition sample_request_em_space : QueryDict :=
  list_to_map [("username", ["bob"]); ("person_id", ["1001" +:+ chr 0x2003])].

(** Subscriptions whose gender is an em space only, and an accented word
    between an em space and a no-break space. *)
Definition sample_subscription_blank_gender : QueryDict :=
  <["gender" := [chr 0x2003]]> sample_subscription.

Definition sample_subscription_accented_gender : QueryDict :=
  <["gender" := [chr 0x2003 +:+ "Voilà" +:+ chr 0xA0]]> sample_subscription.

(** A directory that knows one account, and one that cannot be reached. *)
Definition sample_directory : Directory :=
  mkDirectory None "cn=tutti,dc=esmgquadrivium,dc=nl" (PyStr "service")
    (λ user password,
       if bool_decide (user = "uid=ada,ou=people,dc=esmgquadrivium,dc=nl")
          && bool_decide (password = PyStr "correct horse")
       then None
       else Some LDAPInvalidCredentialsResult).

Definition sample_directory_down : Directory :=
  mkDirectory None "cn=tutti,dc=esmgquadrivium,dc=nl" (PyStr "service")
    (λ _ _, Some (OtherException "LDAPSocketOpenError")).

(** An account that lives in the directory only, and a local one whose stored
    hash is the reversed password. *)
Definition sample_ldap_user : User := mkUser "ada" "invalid".
Definition sample_local_user : User := mkUser "bob" "terces".

Definition sample_hasher : pyval → string → bool :=
  λ raw encoded,
    match raw with
    | PyStr s => bool_decide (String.rev s = encoded)
    | _ => false
    end.

Definition sample_password_validators : pyval → list ValidationError := λ _, [].

Definition sample_password_change (old_password : string) : QueryDict :=
  list_to_map
    [("old_password", [old_password]); ("new_password1", ["battery staple"]);
     ("new_password2", ["battery staple"])].

(** * Properties *)

(** ** Python text *)

(** Arithmetic with the divisions of [chr]. *)
Ltac lia_div := zify; Z.to_euclidean_division_equations; lia.

Lemma is_continuation_byte (n : N) :
  (n < 256)%N →
  is_continuation (ascii_of_N n) = bool_decide (0x80 ≤ n < 0xC0)%N.
Proof.
  intros Hn. unfold is_continuation. rewrite N_ascii_embedding by exact Hn.
  case_bool_decide as H.
  - apply andb_true_intro. split; [apply N.leb_le|apply N.ltb_lt]; lia.
  - apply andb_false_iff. rewrite N.leb_gt, N.ltb_ge. lia.
Qed.

(** The text of a code point is one character: a byte that starts a
    character, then continuation bytes only. *)
Lemma chr_shape cp :
  is_code_point cp →
  ∃ a rest, chr cp = String a rest ∧ is_continuation a = false ∧ all_continuation rest = true.
Proof.
  unfold is_code_point, chr. intros Hcp. cbv zeta.
  destruct (N.ltb_spec cp 0x80);
    [|destruct (N.ltb_spec cp 0x800); [|destruct (N.ltb_spec cp 0x10000)]];
    eexists _, _; (split; [reflexivity|]); cbn [all_continuation];
    rewrite !is_continuation_byte by lia_div;
    rewrite bool_decide_eq_false_2 by lia_div;
    rewrite ?bool_decide_eq_true_2 by lia_div; done.
Qed.

Lemma ascii_of_N_inj (m n : N) :
  (m < 256)%N → (n < 256)%N → ascii_of_N m = ascii_of_N n → m = n.
Proof.
  intros Hm Hn H. rewrite <- (N_ascii_embedding m Hm), <- (N_ascii_embedding n Hn).
  by rewrite H.
Qed.

(** Two code points with the same text are the same. *)
Lemma chr_inj cp cp' :
  is_code_point cp → is_code_point cp' → chr cp = chr cp' → cp = cp'.
Proof.
  unfold is_code_point, chr. intros Hcp Hcp'. cbv zeta.
  destruct (N.ltb_spec cp 0x80);
    [|destruct (N.ltb_spec cp 0x800); [|destruct (N.ltb_spec cp 0x10000)]];
    (destruct (N.ltb_spec cp' 0x80);
       [|destruct (N.ltb_spec cp' 0x800); [|destruct (N.ltb_spec cp' 0x10000)]]);
    intros Heq; try discriminate Heq; injection Heq as ?.
  all: repeat match goal with
              | H : ascii_of_N _ = ascii_of_N _ |- _ =>
                  apply ascii_of_N_inj in H; [|lia_div..]
              end.
  - lia.
  - lia_div.
  - lia_div.
  - lia_div.
Qed.

Lemma concat_cons (c : string) (cs : list string) :
  String.concat "" (c :: cs) = c +:+ String.concat "" cs.
Proof.
  destruct cs as [|c' cs]; cbn [String.concat].
  - induction c as [|a c IH]; [reflexivity|].
    change (String a c +:+ "") with (String a (c +:+ "")). by rewrite <- IH.
  - reflexivity.
Qed.

(** [chars] loses nothing: the characters of a text, joined, are the text. *)
Lemma chars_concat s : String.concat "" (chars s) = s.
Proof.
  induction s as [|a s IH]; [reflexivity|].
  cbn [chars]. destruct (chars s) as [|[|b c] cs].
  - by rewrite <- IH.
  - by rewrite concat_cons, IH.
  - destruct (is_continuation b).
    + rewrite concat_cons in IH |- *. by rewrite <- IH.
    + by rewrite concat_cons, IH.
Qed.

Lemma chars_head a s : ∃ c cs, chars (String a s) = String a c :: cs.
Proof.
  cbn [chars]. destruct (chars s) as [|[|b c] cs]; [by eexists _, _..|].
  destruct (is_continuation b); by eexists _, _.
Qed.

Lemma chars_character a rest s :
  all_continuation rest = true →
  starts_character s = true →
  chars (String a (rest +:+ s)) = String a rest :: chars s.
Proof.
  revert a. induction rest as [|b rest IH]; intros a Hrest Hs.
  - change ("" +:+ s) with s. destruct s as [|b s]; [reflexivity|].
    destruct (chars_head b s) as (c & cs & Heq).
    cbn [chars] in *. rewrite Heq. cbn [starts_character] in Hs.
    apply negb_true_iff in Hs. by rewrite Hs.
  - cbn [all_continuation] in Hrest. apply andb_prop in Hrest as [Hb Hrest].
    change (String b rest +:+ s) with (String b (rest +:+ s)).
    specialize (IH b Hrest Hs). cbn [chars] in *. rewrite IH. by rewrite Hb.
Qed.

Lemma text_cons cp cps : text (cp :: cps) = chr cp +:+ text cps.
Proof. unfold text. rewrite fmap_cons. apply concat_cons. Qed.

Lemma text_starts_character cps :
  Forall is_code_point cps → starts_character (text cps) = true.
Proof.
  destruct 1 as [|cp cps Hcp _]; [reflexivity|].
  rewrite text_cons. destruct (chr_shape cp Hcp) as (a & rest & -> & Ha & _).
  change (String a rest +:+ text cps) with (String a (rest +:+ text cps)).
  cbn [starts_character]. by rewrite Ha.
Qed.

(** The characters of a text are its code points. *)
Lemma chars_text cps :
  Forall is_code_point cps → chars (text cps) = chr <$> cps.
Proof.
  induction 1 as [|cp cps Hcp Hcps IH]; [reflexivity|].
  rewrite text_cons, fmap_cons, <- IH.
  destruct (chr_shape cp Hcp) as (a & rest & -> & _ & Hrest).
  change (String a rest +:+ text cps) with (String a (rest +:+ text cps)).
  apply chars_character; [exact Hrest|by apply text_starts_character].
Qed.

Lemma whitespace_code_points : Forall is_code_point whitespace.
Proof. unfold whitespace, is_code_point. repeat constructor. Qed.

(** A character is white space exactly when its code point is. *)
Lemma is_space_chr cp :
  is_code_point cp → is_space (chr cp) = bool_decide (cp ∈ whitespace).
Proof.
  intros Hcp. unfold is_space. apply bool_decide_ext. rewrite list_elem_of_fmap. split.
  - intros (w & Heq & Hw). apply chr_inj in Heq as ->; [exact Hw|exact Hcp|].
    by eapply Forall_forall in Hw; [|apply whitespace_code_points].
  - intros Hw. by exists cp.
Qed.

Lemma lstrip_chr cps :
  Forall is_code_point cps → lstrip (chr <$> cps) = chr <$> lstrip_code_points cps.
Proof.
  induction 1 as [|cp cps Hcp Hcps IH]; [reflexivity|].
  cbn [fmap list_fmap lstrip lstrip_code_points]. rewrite is_space_chr by exact Hcp.
  by case_bool_decide.
Qed.

Lemma lstrip_code_points_Forall (P : N → Prop) cps :
  Forall P cps → Forall P (lstrip_code_points cps).
Proof.
  induction 1 as [|cp cps Hcp Hcps IH]; [constructor|].
  cbn [lstrip_code_points]. case_bool_decide; [exact IH|by constructor].
Qed.

(** [strip] is Python's [str.strip()]: on the text of any sequence of code
    points it gives the text of the sequence without the white space code
    points at its two ends.  No byte inside a character is taken for white
    space, and white space outside ASCII is removed. *)
Theorem strip_text cps :
  Forall is_code_point cps → strip (text cps) = text (strip_code_points cps).
Proof.
  intros Hcps. unfold strip, strip_code_points, text at 2.
  rewrite chars_text by exact Hcps.
  rewrite lstrip_chr by exact Hcps.
  rewrite <- fmap_reverse, lstrip_chr
    by by apply Forall_reverse, lstrip_code_points_Forall.
  by rewrite <- fmap_reverse.
Qed.

(** A text without white space at its ends is left as it is, whatever its
    characters. *)
Corollary strip_text_id cps :
  Forall is_code_point cps →
  head cps ∉ Some <$> whitespace →
  last cps ∉ Some <$> whitespace →
  strip (text cps) = text cps.
Proof.
  intros Hcps Hhead Hlast. rewrite strip_text by exact Hcps. f_equal.
  unfold strip_code_points.
  assert (∀ l, head l ∉ Some <$> whitespace → lstrip_code_points l = l) as Hid.
  { intros [|cp l] Hl; [reflexivity|]. cbn [lstrip_code_points].
    rewrite bool_decide_eq_false_2; [reflexivity|].
    intros Hcp. apply Hl. cbn [head]. apply list_elem_of_fmap. by exists cp. }
  rewrite (Hid cps Hhead), Hid, reverse_involutive; [reflexivity|].
  by rewrite head_reverse.
Qed.

Example strip_accented : strip "Voilà" = "Voilà".
Proof. vm_compute. reflexivity. Qed.

Example strip_unicode_white_space :
  strip (chr 0x2003 +:+ " Voilà, x" +:+ chr 0xA0 +:+ chr 0x3000) = "Voilà, x".
Proof. vm_compute. reflexivity. Qed.

Example strip_blank : strip (chr 0x2003 +:+ chr 0x85) = "".
Proof. vm_compute. reflexivity. Qed.
(** ** The LDAP bind helper *)

Section try_ldap_bind_properties.
Context (ldap : Directory) (user : string) (password : pyval).

(** The helper, by cases on what the directory does. *)
Lemma try_ldap_bind_unfold :
  try_ldap_bind ldap user password =
    match connect_error ldap with
    | Some e => (Exc e, [EvGetConnection])
    | None =>
        (match bind_error ldap user password with
         | None => Ok (PyBool true)
         | Some LDAPInvalidCredentialsResult => Ok (PyBool false)
         | Some e => Exc e
         end,
         [EvGetConnection; EvBind user password; EvUnbind])
    end.
Proof.
  unfold try_ldap_bind, get_connection, Connection_bind, Connection_unbind.
  destruct (connect_error ldap) as [e|]; [reflexivity|].
  cbn. destruct (bind_error ldap user password) as [[]|]; reflexivity.
Qed.

(** C2: when the call reaches the bind attempt, [try_ldap_bind] returns
    [False] exactly when the bind raises the invalid-credentials error,
    returns [True] when (and only when) the bind completes without error, and
    any other exception the bind raises leaves the helper uncaught. *)
Theorem try_ldap_bind_result :
  connect_error ldap = None →
  (fst (try_ldap_bind ldap user password) = Ok (PyBool false)
     ↔ bind_error ldap user password = Some LDAPInvalidCredentialsResult)
  ∧ (fst (try_ldap_bind ldap user password) = Ok (PyBool true)
     ↔ bind_error ldap user password = None)
  ∧ (∀ e, bind_error ldap user password = Some e →
          e ≠ LDAPInvalidCredentialsResult →
          fst (try_ldap_bind ldap user password) = Exc e).
Proof.
  intros Hconn. rewrite try_ldap_bind_unfold, Hconn. cbn.
  destruct (bind_error ldap user password) as [[]|]; cbn;
    repeat split; intros; try congruence; try discriminate.
Qed.

(** C3: on every execution that reaches the bind attempt the connection is
    released exactly once, after the bind and as the last thing the helper
    does, whatever the bind did (success, invalid credentials, any other
    exception). *)
Theorem try_ldap_bind_unbinds_once :
  EvBind user password ∈ snd (try_ldap_bind ldap user password) →
  unbind_count (snd (try_ldap_bind ldap user password)) = 1
  ∧ ∃ before, snd (try_ldap_bind ldap user password)
              = before ++ [EvBind user password; EvUnbind]
              ∧ EvUnbind ∉ before.
Proof.
  rewrite try_ldap_bind_unfold.
  destruct (connect_error ldap) as [e|]; cbn.
  - intros H. apply list_elem_of_singleton in H. discriminate.
  - intros _. split; [reflexivity|].
    exists [EvGetConnection]. split; [reflexivity|].
    intros H. apply list_elem_of_singleton in H. discriminate.
Qed.

(** The helper never touches the local password check. *)
Lemma try_ldap_bind_trace_ldap :
  Forall (λ ev, is_ldap_event ev = true) (snd (try_ldap_bind ldap user password)).
Proof.
  rewrite try_ldap_bind_unfold.
  destruct (connect_error ldap); cbn; repeat constructor.
Qed.

(** The helper returns a boolean or raises. *)
Lemma try_ldap_bind_bool :
  (∃ b, fst (try_ldap_bind ldap user password) = Ok (PyBool b))
  ∨ (∃ e, fst (try_ldap_bind ldap user password) = Exc e).
Proof.
  rewrite try_ldap_bind_unfold.
  destruct (connect_error ldap); cbn; [eauto|].
  destruct (bind_error ldap user password) as [[]|]; cbn; eauto.
Qed.

End try_ldap_bind_properties.

(** ** Generic facts about [full_clean] *)

Lemma Py_bind_ok {A B : Type} (a : A) (f : A → Py B) :
  (Ok a, []) ≫= f = f a.
Proof. unfold mbind, Py_bind. destruct (f a). reflexivity. Qed.

Lemma Py_ret_eq {A : Type} (a : A) : (mret a : Py A) = (Ok a, []).
Proof. reflexivity. Qed.

Lemma Py_bind_trace {A B : Type} (a : A) (t : list event) (f : A → Py B) :
  (Ok a, t) ≫= f = (fst (f a), t ++ snd (f a)).
Proof. unfold mbind, Py_bind. destruct (f a). reflexivity. Qed.

Lemma Py_bind_assoc {A B C : Type} (m : Py A) (f : A → Py B) (g : B → Py C) :
  (m ≫= f) ≫= g = m ≫= (λ x, f x ≫= g).
Proof.
  destruct m as [[a|e] t]; [|reflexivity].
  unfold mbind, Py_bind. destruct (f a) as [[b|e] t']; [|reflexivity].
  destruct (g b) as [r t'']. by rewrite app_assoc.
Qed.

Lemma for_cons {A S : Type} (x : A) (xs : list A) (body : S → A → Py S) (self : S) :
  for_ (x :: xs) body self = body self x ≫= for_ xs body.
Proof. reflexivity. Qed.

Lemma Py_bind_exc {A B : Type} (e : exn) (t : list event) (f : A → Py B) :
  (Exc e, t) ≫= f = (Exc e, t).
Proof. reflexivity. Qed.

Lemma add_error_errors_nonempty field errs self :
  errors (add_error field errs self) ≠ ∅.
Proof. unfold add_error. cbn. apply insert_non_empty. Qed.

Lemma add_error_lookup_ne name errs self k :
  k ≠ name →
  cleaned_data (add_error (Some name) errs self) !! k = cleaned_data self !! k
  ∧ errors (add_error (Some name) errs self) !! k = errors self !! k.
Proof.
  intros Hk. unfold add_error. cbn.
  rewrite lookup_delete_ne, lookup_insert_ne by congruence. done.
Qed.

Lemma add_error_lookup_eq name errs self :
  cleaned_data (add_error (Some name) errs self) !! name = None
  ∧ errors (add_error (Some name) errs self) !! name
    = Some (default [] (errors self !! name) ++ errs).
Proof.
  unfold add_error. cbn. rewrite lookup_delete_eq, lookup_insert_eq. done.
Qed.

(** A form without [clean_<name>] methods: [_clean_fields] is the plain loop
    over the fields. It raises nothing and has no effect outside the form. *)
Lemma clean_fields_no_methods form data :
  (∀ name, clean_name form name = None) →
  ∀ fs self,
    for_ fs (clean_field form data) self
    = (Ok (foldl (own_clean_round data) self fs), []).
Proof.
  intros Hno fs. induction fs as [|[name f] fs IH]; intros self; [reflexivity|].
  cbn [for_ foldl].
  assert (clean_field form data self (name, f)
          = (Ok (own_clean_round data self (name, f)), [])) as ->.
  { unfold clean_field, own_clean_round. cbn.
    destruct (Field_clean f data name); [reflexivity|]. by rewrite Hno. }
  rewrite Py_bind_ok. apply IH.
Qed.

(** What the loop leaves under a name that is not among the fields. *)
Lemma own_clean_rounds_other data fs : ∀ self k,
  k ∉ fs.*1 →
  cleaned_data (foldl (own_clean_round data) self fs) !! k = cleaned_data self !! k
  ∧ errors (foldl (own_clean_round data) self fs) !! k = errors self !! k.
Proof.
  induction fs as [|[name f] fs IH]; intros self k Hk; [done|].
  cbn in Hk. apply not_elem_of_cons in Hk as [Hne Hk].
  cbn [foldl]. destruct (IH (own_clean_round data self (name, f)) k Hk) as [-> ->].
  unfold own_clean_round. cbn.
  destruct (Field_clean f data name).
  - by apply add_error_lookup_ne.
  - cbn. by rewrite lookup_insert_ne by congruence.
Qed.

(** What the loop leaves under the name of a field: its cleaned value, or its
    errors and no value. *)
Lemma own_clean_rounds_field data fs : ∀ self name f,
  NoDup fs.*1 →
  (name, f) ∈ fs →
  match Field_clean f data name with
  | inr value =>
      cleaned_data (foldl (own_clean_round data) self fs) !! name = Some value
      ∧ errors (foldl (own_clean_round data) self fs) !! name = errors self !! name
  | inl errs =>
      cleaned_data (foldl (own_clean_round data) self fs) !! name = None
      ∧ errors (foldl (own_clean_round data) self fs) !! name
        = Some (default [] (errors self !! name) ++ errs)
  end.
Proof.
  induction fs as [|[name' f'] fs IH]; intros self name f Hnd Hin.
  - by apply elem_of_nil in Hin.
  - cbn in Hnd. apply NoDup_cons in Hnd as [Hfresh Hnd].
    apply elem_of_cons in Hin as [Heq|Hin].
    + injection Heq as <- <-. cbn [foldl].
      destruct (own_clean_rounds_other data fs (own_clean_round data self (name, f))
                  name Hfresh) as [E1 E2].
      unfold own_clean_round in E1, E2 |- *. cbn in E1, E2 |- *.
      destruct (Field_clean f data name) as [errs|value].
      * rewrite E1, E2. apply add_error_lookup_eq.
      * rewrite E1, E2. cbn. by rewrite lookup_insert_eq.
    + assert (name ≠ name') as Hne.
      { intros ->. apply Hfresh. apply list_elem_of_fmap. by exists (name', f). }
      cbn [foldl]. specialize (IH (own_clean_round data self (name', f')) name f Hnd Hin).
      assert (cleaned_data (own_clean_round data self (name', f')) !! name
              = cleaned_data self !! name
              ∧ errors (own_clean_round data self (name', f')) !! name
                = errors self !! name) as [E1 E2].
      { unfold own_clean_round. cbn. destruct (Field_clean f' data name').
        - by apply add_error_lookup_ne.
        - cbn. by rewrite lookup_insert_ne by congruence. }
      destruct (Field_clean f data name); by rewrite <- ?E2.
Qed.

(** [_post_clean] of a model form never removes an error. *)
Lemma ModelForm_post_clean_errors_nonempty model_errors self :
  errors self ≠ ∅ → errors (ModelForm_post_clean model_errors self) ≠ ∅.
Proof.
  unfold ModelForm_post_clean.
  generalize (model_errors (cleaned_data self)).
  intros l. revert self. induction l as [|e l IH]; intros self H; [done|].
  cbn [foldl]. apply IH, add_error_errors_nonempty.
Qed.

(** When the form ends without errors, [_post_clean] found none and left the
    form as it was. *)
Lemma ModelForm_post_clean_valid model_errors self :
  errors (ModelForm_post_clean model_errors self) = ∅ →
  ModelForm_post_clean model_errors self = self.
Proof.
  unfold ModelForm_post_clean.
  destruct (model_errors (cleaned_data self)) as [|e l] eqn:E;
    [done|].
  cbn [foldl]. intros H. exfalso. revert H.
  assert (∀ st, errors st ≠ ∅ →
                errors (foldl (λ self e, add_error e.1 e.2 self) st l) ≠ ∅) as Hkeep.
  { clear. induction l as [|e l IH]; intros st H; [done|].
    cbn [foldl]. apply IH, add_error_errors_nonempty. }
  apply Hkeep, add_error_errors_nonempty.
Qed.

(** ** SubscribeForm *)

(** The fields [SubscribeForm.__init__] leaves on the form. *)
Lemma SubscribeForm_init_eq models :
  SubscribeForm_init models =
    let model := MembershipRequest_formfield models in
    let yes_no := mkField true (ChoiceField ["Yes"; "No"]) in
    [("first_name", set_required true (model "first_name"));
     ("last_name", set_required true (model "last_name"));
     ("initials", set_required true (model "initials"));
     ("email", set_required true (model "email"));
     ("phone_number", set_required true (model "phone_number"));
     ("street", set_required true (model "street"));
     ("postal_code", set_required true (model "postal_code"));
     ("city", set_required true (model "city"));
     ("country", set_required true (model "country"));
     ("gender", mkField true (CharField true []));
     ("date_of_birth", set_required true (model "date_of_birth"));
     ("preferred_language", mkField true (CharField true []));
     ("field_of_study", model "field_of_study");
     ("is_student", yes_no);
     ("iban", model "iban");
     ("tue_card_number", model "tue_card_number");
     ("remarks", model "remarks");
     ("sub_association", model "sub_association");
     ("instruments", set_required true (model "instruments"));
     ("photo_video_consent_external_group", yes_no);
     ("photo_video_consent_external", yes_no);
     ("photo_video_consent_internal", yes_no);
     ("ensure_subscribe", mkField true (MultipleChoiceField ["True"]));
     ("add_to_chats", mkField true (MultipleChoiceField ["True"]))].
Proof. vm_compute. reflexivity. Qed.

Lemma SubscribeForm_init_names models :
  (SubscribeForm_init models).*1 = SubscribeForm_Meta_fields.
Proof. rewrite SubscribeForm_init_eq. reflexivity. Qed.

Lemma SubscribeForm_Meta_fields_NoDup : NoDup SubscribeForm_Meta_fields.
Proof. apply (bool_decide_unpack _). vm_compute. exact I. Qed.

Lemma SubscribeForm_boolean_field models field :
  field ∈ SubscribeForm_Meta_boolean_choices →
  (field, mkField true (ChoiceField ["Yes"; "No"])) ∈ SubscribeForm_init models.
Proof.
  intros H. rewrite SubscribeForm_init_eq. cbv zeta.
  unfold SubscribeForm_Meta_boolean_choices in H.
  repeat (apply elem_of_cons in H as [->|H]; [set_solver|]).
  by apply elem_of_nil in H.
Qed.

Lemma SubscribeForm_checkbox_field models field :
  field ∈ ["add_to_chats"; "ensure_subscribe"] →
  (field, mkField true (MultipleChoiceField ["True"])) ∈ SubscribeForm_init models.
Proof.
  intros H. rewrite SubscribeForm_init_eq. cbv zeta.
  repeat (apply elem_of_cons in H as [->|H]; [set_solver|]).
  by apply elem_of_nil in H.
Qed.

(** [_clean_fields] of the form: the plain loop. *)
Lemma SubscribeForm_clean_fields models data :
  BaseForm_clean_fields (SubscribeForm models) data (mkFormState ∅ ∅)
  = (Ok (foldl (own_clean_round data) (mkFormState ∅ ∅) (SubscribeForm_init models)), []).
Proof. unfold BaseForm_clean_fields. by apply clean_fields_no_methods. Qed.

(** The body of the loop of [SubscribeForm.clean]. *)
Local Abbreviation cast_round :=
  (λ (self : FormState) (field : string),
     getitem (cleaned_data self) field ≫= λ value,
     mret (mkFormState (<[field := PyBool (py_eq_str value "Yes")]> (cleaned_data self))
                       (errors self))).

Lemma cast_round_eq self field :
  cast_round self field =
    match cleaned_data self !! field with
    | Some value =>
        (Ok (mkFormState (<[field := PyBool (py_eq_str value "Yes")]> (cleaned_data self))
                         (errors self)), [])
    | None => (Exc (KeyError field), [])
    end.
Proof. unfold getitem. destruct (cleaned_data self !! field); reflexivity. Qed.

(** The loop stops with [KeyError] at the first name that is not a key of
    [cleaned_data]. *)
Lemma cast_loop_missing names : ∀ self field,
  field ∈ names →
  cleaned_data self !! field = None →
  ∃ key, key ∈ names ∧ for_ names cast_round self = (Exc (KeyError key), []).
Proof.
  induction names as [|name names IH]; intros self field Hin Hnone.
  - by apply elem_of_nil in Hin.
  - cbn [for_]. rewrite cast_round_eq.
    destruct (cleaned_data self !! name) as [value|] eqn:E.
    + rewrite Py_bind_ok.
      apply elem_of_cons in Hin as [->|Hin]; [congruence|].
      destruct (IH (mkFormState (<[name := PyBool (py_eq_str value "Yes")]> (cleaned_data self))
                                (errors self)) field Hin) as (key & Hkey & ->).
      { cbn. rewrite lookup_insert_ne; [done|]. intros ->. congruence. }
      exists key. split; [by apply elem_of_cons; right | done].
    + exists name. split; [by apply elem_of_cons; left | done].
Qed.

(** When the loop completes it has replaced the value of every name by the
    boolean [value == 'Yes'] and touched nothing else. *)
Lemma cast_loop_ok names : ∀ self self' t,
  NoDup names →
  for_ names cast_round self = (Ok self', t) →
  t = [] ∧ errors self' = errors self
  ∧ (∀ field, field ∈ names →
       ∃ value, cleaned_data self !! field = Some value
                ∧ cleaned_data self' !! field = Some (PyBool (py_eq_str value "Yes")))
  ∧ (∀ k, k ∉ names → cleaned_data self' !! k = cleaned_data self !! k).
Proof.
  induction names as [|name names IH]; intros self self' t Hnd Hrun.
  - cbn in Hrun. injection Hrun as <- <-. split; [done|]. split; [done|]. split; [|done].
    intros field H. by apply elem_of_nil in H.
  - apply NoDup_cons in Hnd as [Hfresh Hnd].
    cbn [for_] in Hrun. rewrite cast_round_eq in Hrun.
    destruct (cleaned_data self !! name) as [value|] eqn:E; [|discriminate].
    rewrite Py_bind_ok in Hrun.
    destruct (IH _ _ _ Hnd Hrun) as (-> & Herr & Hin & Hout). cbn in Herr, Hin, Hout.
    split; [done|]. split; [done|]. split.
    + intros field Hf. apply elem_of_cons in Hf as [->|Hf].
      * exists value. split; [done|]. rewrite (Hout name Hfresh). apply lookup_insert_eq.
      * destruct (Hin field Hf) as (v & Hv & Hv').
        exists v. split; [|done]. rewrite lookup_insert_ne in Hv; [done|].
        intros ->. contradiction.
    + intros k Hk. apply not_elem_of_cons in Hk as [Hne Hk].
      rewrite (Hout k Hk). by apply lookup_insert_ne.
Qed.

(** The loop completes when every name is a key of [cleaned_data]. *)
Lemma cast_loop_total names : ∀ self,
  (∀ field, field ∈ names → is_Some (cleaned_data self !! field)) →
  ∃ self', for_ names cast_round self = (Ok self', []).
Proof.
  induction names as [|name names IH]; intros self Hall; [by eexists|].
  cbn [for_]. rewrite cast_round_eq.
  destruct (Hall name) as [value ->]; [by apply elem_of_cons; left|].
  rewrite Py_bind_ok. apply IH. intros field Hf. cbn.
  destruct (decide (name = field)) as [->|Hne].
  - rewrite lookup_insert_eq. by eexists.
  - rewrite lookup_insert_ne by done. apply Hall. by apply elem_of_cons; right.
Qed.

Lemma cast_loop_trace names : ∀ self, snd (for_ names cast_round self) = [].
Proof.
  induction names as [|name names IH]; intros self; [done|].
  cbn [for_]. rewrite cast_round_eq.
  destruct (cleaned_data self !! name); [|done].
  rewrite Py_bind_ok. apply IH.
Qed.

Lemma SubscribeForm_boolean_choices_NoDup : NoDup SubscribeForm_Meta_boolean_choices.
Proof. apply (bool_decide_unpack _). vm_compute. exact I. Qed.

(** [is_valid] of the form, by cases on the loop of [clean]. *)
Lemma SubscribeForm_is_valid_unfold models data :
  let validated :=
    foldl (own_clean_round data) (mkFormState ∅ ∅) (SubscribeForm_init models) in
  BaseForm_full_clean (SubscribeForm models) data =
    match for_ SubscribeForm_Meta_boolean_choices cast_round validated with
    | (Ok self, _) =>
        (Ok (ModelForm_post_clean (MembershipRequest_errors models) self), [])
    | (Exc (EValidationError errs), _) =>
        (Ok (ModelForm_post_clean (MembershipRequest_errors models)
               (add_error None errs validated)), [])
    | (Exc e, _) => (Exc e, [])
    end.
Proof.
  intros validated. unfold BaseForm_full_clean.
  rewrite SubscribeForm_clean_fields, Py_bind_ok. fold validated.
  unfold BaseForm_clean_form. cbn [clean SubscribeForm]. unfold SubscribeForm_clean.
  pose proof (cast_loop_trace SubscribeForm_Meta_boolean_choices validated) as Ht.
  destruct (for_ SubscribeForm_Meta_boolean_choices cast_round validated) as [[self|e] t];
    cbn in Ht; subst t.
  - rewrite Py_bind_ok. unfold BaseForm_clean. cbn. by destruct self.
  - rewrite Py_bind_exc. by destruct e.
Qed.

(** The yes/no field accepts exactly the two answers. *)
Lemma yes_no_clean data field value :
  Field_clean (mkField true (ChoiceField ["Yes"; "No"])) data field = inr value →
  (QueryDict_get data field = Some "Yes" ∧ value = PyStr "Yes")
  ∨ (QueryDict_get data field = Some "No" ∧ value = PyStr "No").
Proof.
  unfold Field_clean. cbn. unfold ChoiceField_clean.
  destruct (QueryDict_get data field) as [s|]; cbn; [|done].
  case_bool_decide; [done|]. case_bool_decide as Hin; [|done].
  intros [= <-].
  apply elem_of_cons in Hin as [->|Hin]; [by left|].
  apply elem_of_cons in Hin as [->|Hin]; [by right|].
  by apply elem_of_nil in Hin.
Qed.

Lemma yes_no_unanswered data field :
  unanswered (mkField true (ChoiceField ["Yes"; "No"])) data field →
  Field_clean (mkField true (ChoiceField ["Yes"; "No"])) data field = inl [error_required].
Proof.
  unfold unanswered, Field_clean. cbn. unfold ChoiceField_clean.
  by intros [-> | ->].
Qed.

(** The state after the per-field validation of a subscription. *)
Local Abbreviation validated_subscription models data :=
  (foldl (own_clean_round data) (mkFormState ∅ ∅) (SubscribeForm_init models)).

Lemma SubscribeForm_validated_field models data name f :
  (name, f) ∈ SubscribeForm_init models →
  match Field_clean f data name with
  | inr value =>
      cleaned_data (validated_subscription models data) !! name = Some value
      ∧ errors (validated_subscription models data) !! name = None
  | inl errs =>
      cleaned_data (validated_subscription models data) !! name = None
      ∧ errors (validated_subscription models data) !! name = Some errs
  end.
Proof.
  intros Hin.
  pose proof (own_clean_rounds_field data (SubscribeForm_init models)
                (mkFormState ∅ ∅) name f) as H.
  rewrite SubscribeForm_init_names in H.
  specialize (H SubscribeForm_Meta_fields_NoDup Hin).
  by destruct (Field_clean f data name).
Qed.

(** A boolean-choice field that did not pass its own validation is missing
    from [cleaned_data] when [clean] runs: the loop of [clean] raises
    [KeyError], which nothing catches. *)
Lemma SubscribeForm_clean_KeyError models data field errs :
  field ∈ SubscribeForm_Meta_boolean_choices →
  Field_clean (mkField true (ChoiceField ["Yes"; "No"])) data field = inl errs →
  ∃ key, key ∈ SubscribeForm_Meta_boolean_choices
         ∧ BaseForm_is_valid (SubscribeForm models) data = (Exc (KeyError key), []).
Proof.
  intros Hfield Hclean.
  pose proof (SubscribeForm_validated_field models data field _
                (SubscribeForm_boolean_field models field Hfield)) as H.
  rewrite Hclean in H. destruct H as [Hnone _].
  destruct (cast_loop_missing SubscribeForm_Meta_boolean_choices
              (validated_subscription models data) field Hfield Hnone) as (key & Hkey & Hrun).
  exists key. split; [done|].
  unfold BaseForm_is_valid. rewrite SubscribeForm_is_valid_unfold. cbv zeta.
  by rewrite Hrun.
Qed.

(** C5 (what the code does where a rejection is specified): when a
    boolean-choice field of a subscription is left unanswered, validating the
    form does not report it invalid: [SubscribeForm.clean] reads the missing
    key of [cleaned_data] and [is_valid] ends with an uncaught [KeyError] for a
    boolean-choice field. *)
Theorem SubscribeForm_unanswered_boolean_choice_raises models data field :
  field ∈ SubscribeForm_Meta_boolean_choices →
  unanswered (mkField true (ChoiceField ["Yes"; "No"])) data field →
  ∃ key, key ∈ SubscribeForm_Meta_boolean_choices
         ∧ BaseForm_is_valid (SubscribeForm models) data = (Exc (KeyError key), []).
Proof.
  intros Hfield Hblank.
  apply (SubscribeForm_clean_KeyError models data field [error_required] Hfield).
  by apply yes_no_unanswered.
Qed.

(** C6: in every subscription that validates, each boolean-choice field was
    validated by its field to the string "Yes" or "No", and [clean] returns
    (and the form keeps) the boolean [True] for "Yes" and [False] for "No"
    under that name: the rewrite is done when [clean] returns. *)
Theorem SubscribeForm_boolean_choices_cast models data self :
  fst (BaseForm_full_clean (SubscribeForm models) data) = Ok self →
  errors self = ∅ →
  ∃ validated,
    fst (BaseForm_clean_fields (SubscribeForm models) data (mkFormState ∅ ∅)) = Ok validated
    ∧ fst (SubscribeForm_clean validated) = Ok (self, Some (cleaned_data self))
    ∧ ∀ field, field ∈ SubscribeForm_Meta_boolean_choices →
        (cleaned_data validated !! field = Some (PyStr "Yes")
         ∧ cleaned_data self !! field = Some (PyBool true))
        ∨ (cleaned_data validated !! field = Some (PyStr "No")
           ∧ cleaned_data self !! field = Some (PyBool false)).
Proof.
  intros Hrun Hvalid. exists (validated_subscription models data).
  split; [by rewrite SubscribeForm_clean_fields|].
  rewrite SubscribeForm_is_valid_unfold in Hrun. cbv zeta in Hrun.
  unfold SubscribeForm_clean.
  destruct (for_ SubscribeForm_Meta_boolean_choices cast_round
              (validated_subscription models data)) as [[after|e] t] eqn:Hloop.
  - cbn [fst] in Hrun. injection Hrun as <-.
    rewrite (ModelForm_post_clean_valid _ _ Hvalid) in *.
    destruct (cast_loop_ok _ _ _ _ SubscribeForm_boolean_choices_NoDup Hloop)
      as (-> & _ & Hin & _).
    split; [by rewrite Py_bind_ok|].
    intros field Hfield. destruct (Hin field Hfield) as (value & Hbefore & Hafter).
    pose proof (SubscribeForm_validated_field models data field _
                  (SubscribeForm_boolean_field models field Hfield)) as H.
    destruct (Field_clean _ data field) as [errs|value'] eqn:Hclean;
      destruct H as [H _]; [congruence|].
    assert (value' = value) as -> by congruence.
    destruct (yes_no_clean data field value Hclean) as [[_ ->]|[_ ->]];
      [left|right]; rewrite Hbefore, Hafter; (split; [reflexivity|vm_compute; reflexivity]).
  - exfalso. destruct e as [errs| | |]; cbn [fst] in Hrun; [|discriminate..].
    pose proof (add_error_errors_nonempty None errs (validated_subscription models data))
      as Hne.
    revert Hrun Hne. generalize (add_error None errs (validated_subscription models data)).
    intros st [= <-] Hne. revert Hvalid.
    apply ModelForm_post_clean_errors_nonempty, Hne.
Qed.

Lemma errors_lookup_nonempty (self : FormState) name errs :
  errors self !! name = Some errs → errors self ≠ ∅.
Proof. intros H Hempty. rewrite Hempty, lookup_empty in H. discriminate. Qed.

Lemma is_valid_of_errors (self : FormState) :
  errors self ≠ ∅ →
  ((Ok self, []) : Py FormState) ≫= (λ self, mret (bool_decide (errors self = ∅)) : Py bool)
  = (Ok false, []).
Proof.
  intros H. rewrite Py_bind_ok. unfold mret, Py_ret. by rewrite bool_decide_eq_false_2.
Qed.

(** A subscription with an error from the per-field validation is never
    accepted, and is reported invalid whenever [clean] completes. *)
Lemma SubscribeForm_invalid models data :
  errors (validated_subscription models data) ≠ ∅ →
  fst (BaseForm_is_valid (SubscribeForm models) data) ≠ Ok true
  ∧ (∀ after t,
       for_ SubscribeForm_Meta_boolean_choices cast_round (validated_subscription models data)
       = (Ok after, t) →
       BaseForm_is_valid (SubscribeForm models) data = (Ok false, [])).
Proof.
  intros Herr. unfold BaseForm_is_valid. rewrite SubscribeForm_is_valid_unfold. cbv zeta.
  pose proof (add_error_errors_nonempty None) as Hadd.
  revert Herr Hadd. generalize (validated_subscription models data). intros validated Herr Hadd.
  destruct (for_ SubscribeForm_Meta_boolean_choices cast_round validated)
    as [[after|e] t] eqn:Hloop.
  - destruct (cast_loop_ok _ _ _ _ SubscribeForm_boolean_choices_NoDup Hloop)
      as (_ & Hsame & _).
    assert (errors (ModelForm_post_clean (MembershipRequest_errors models) after) ≠ ∅) as Hne.
    { apply ModelForm_post_clean_errors_nonempty. by rewrite Hsame. }
    rewrite (is_valid_of_errors _ Hne). split; [discriminate|]. done.
  - split; [|discriminate].
    destruct e as [errs| | |]; [|rewrite Py_bind_exc; discriminate..].
    rewrite is_valid_of_errors; [discriminate|].
    apply ModelForm_post_clean_errors_nonempty, Hadd.
Qed.

Lemma yes_no_answered data field :
  QueryDict_get data field = Some "Yes" ∨ QueryDict_get data field = Some "No" →
  ∃ value, Field_clean (mkField true (ChoiceField ["Yes"; "No"])) data field = inr value.
Proof.
  unfold Field_clean. cbn. unfold ChoiceField_clean.
  intros [-> | ->]; eexists; vm_compute; reflexivity.
Qed.

(** C10 (where the code rejects as specified and where it departs from it):
    [add_to_chats] and [ensure_subscribe] are required one-checkbox fields
    declared on the form itself, whatever the model, and a subscription that
    leaves one of them unchecked gets the field's required error from the
    per-field validation and is never accepted.  It is rejected ([is_valid]
    returns [False]) whenever the four boolean-choice fields were answered;
    when one of those is unanswered as well, [is_valid] ends with the uncaught
    [KeyError] of [clean] instead of a rejection. *)
Theorem SubscribeForm_checkbox_mandatory models data field :
  field ∈ ["add_to_chats"; "ensure_subscribe"] →
  QueryDict_getlist data field = [] →
  form_field (SubscribeForm models) field
    = Some (mkField true (MultipleChoiceField ["True"]))
  ∧ (∃ validated,
       fst (BaseForm_clean_fields (SubscribeForm models) data (mkFormState ∅ ∅)) = Ok validated
       ∧ errors validated !! field = Some [error_required]
       ∧ cleaned_data validated !! field = None)
  ∧ fst (BaseForm_is_valid (SubscribeForm models) data) ≠ Ok true
  ∧ ((∀ choice, choice ∈ SubscribeForm_Meta_boolean_choices →
        QueryDict_get data choice = Some "Yes" ∨ QueryDict_get data choice = Some "No") →
     BaseForm_is_valid (SubscribeForm models) data = (Ok false, []))
  ∧ (∀ choice, choice ∈ SubscribeForm_Meta_boolean_choices →
        unanswered (mkField true (ChoiceField ["Yes"; "No"])) data choice →
        ∃ key, key ∈ SubscribeForm_Meta_boolean_choices
               ∧ BaseForm_is_valid (SubscribeForm models) data = (Exc (KeyError key), [])).
Proof.
  intros Hfield Hblank.
  pose proof (SubscribeForm_validated_field models data field _
                (SubscribeForm_checkbox_field models field Hfield)) as H.
  assert (Field_clean (mkField true (MultipleChoiceField ["True"])) data field
          = inl [error_required]) as Hclean.
  { unfold Field_clean. cbn. rewrite Hblank. reflexivity. }
  rewrite Hclean in H. destruct H as [Hnone Herr].
  pose proof (errors_lookup_nonempty _ _ _ Herr) as Hne.
  destruct (SubscribeForm_invalid models data Hne) as [Hnever Hfalse].
  split; [|split; [|split; [|split]]].
  - unfold form_field. cbn [fields SubscribeForm]. rewrite SubscribeForm_init_eq.
    apply elem_of_cons in Hfield as [->|Hfield]; [vm_compute; reflexivity|].
    apply elem_of_cons in Hfield as [->|Hfield]; [vm_compute; reflexivity|].
    apply elem_of_nil in Hfield. destruct Hfield.
  - exists (validated_subscription models data).
    split; [rewrite SubscribeForm_clean_fields; reflexivity|]. split; assumption.
  - exact Hnever.
  - intros Hanswered.
    destruct (cast_loop_total SubscribeForm_Meta_boolean_choices
                (validated_subscription models data)) as [after Hloop].
    { intros choice Hchoice.
      destruct (yes_no_answered data choice (Hanswered choice Hchoice)) as [value Hvalue].
      pose proof (SubscribeForm_validated_field models data choice _
                    (SubscribeForm_boolean_field models choice Hchoice)) as H.
      rewrite Hvalue in H. destruct H as [-> _]. eexists; reflexivity. }
    exact (Hfalse after [] Hloop).
  - intros choice Hchoice Hunanswered.
    apply (SubscribeForm_clean_KeyError models data choice [error_required] Hchoice).
    apply yes_no_unanswered, Hunanswered.
Qed.

(** ** ProfileForm *)

(** A required field rejects an empty submission, for each of the field
    classes. *)
Lemma required_unanswered f data name :
  required f = true →
  unanswered f data name →
  Field_clean f data name = inl [error_required].
Proof.
  destruct f as [req k]. cbn. intros ->. unfold unanswered, Field_clean. cbn.
  destruct k as [strip_ vs|choices|choices|queryset valid_pk|convert vs]; cbn.
  - unfold CharField_clean. intros [-> | ->]; destruct strip_; reflexivity.
  - unfold ChoiceField_clean. intros [-> | ->]; reflexivity.
  - unfold MultipleChoiceField_clean. intros ->. reflexivity.
  - unfold ModelMultipleChoiceField_clean. intros ->. reflexivity.
  - unfold ScalarField_clean. intros [-> | ->]; reflexivity.
Qed.

(** A form without methods of its own whose [_post_clean] keeps the errors:
    an error of one field makes the form invalid. *)
Lemma plain_form_invalid form data name f errs :
  (∀ n, clean_name form n = None) →
  clean form = BaseForm_clean →
  (∀ self, errors self ≠ ∅ → errors (post_clean form self) ≠ ∅) →
  NoDup (fields form).*1 →
  (name, f) ∈ fields form →
  Field_clean f data name = inl errs →
  BaseForm_is_valid form data = (Ok false, []).
Proof.
  intros Hno Hclean Hpost Hnd Hin Herrs.
  unfold BaseForm_is_valid, BaseForm_full_clean, BaseForm_clean_fields.
  rewrite (clean_fields_no_methods form data Hno), Py_bind_ok.
  pose proof (own_clean_rounds_field data (fields form) (mkFormState ∅ ∅) name f Hnd Hin)
    as H.
  rewrite Herrs in H. destruct H as [_ H]. apply errors_lookup_nonempty in H.
  revert H. generalize (foldl (own_clean_round data) (mkFormState ∅ ∅) (fields form)).
  intros validated H.
  unfold BaseForm_clean_form. rewrite Hclean. unfold BaseForm_clean. cbn.
  destruct validated as [cd errs']. cbn in *.
  specialize (Hpost (mkFormState cd errs') H).
  unfold mbind, Py_bind, mret, Py_ret. cbn.
  rewrite bool_decide_eq_false_2; done.
Qed.

Lemma ProfileForm_init_eq models :
  ProfileForm_init models =
    (λ name, (name, set_required true (Person_formfield models name)))
      <$> ProfileForm_Meta_fields.
Proof. vm_compute. reflexivity. Qed.

(** C9: every one of the seven fields of [ProfileForm] is marked required,
    whatever the model says about it, and a submission that leaves one of them
    out is rejected: the form is invalid. *)
Theorem ProfileForm_fields_required models data name :
  name ∈ ProfileForm_Meta_fields →
  ∃ f, form_field (ProfileForm models) name = Some f
       ∧ required f = true
       ∧ kind f = kind (Person_formfield models name)
       ∧ (unanswered f data name →
          BaseForm_is_valid (ProfileForm models) data = (Ok false, [])).
Proof.
  intros Hname. exists (set_required true (Person_formfield models name)).
  assert ((name, set_required true (Person_formfield models name))
            ∈ fields (ProfileForm models)) as Hin.
  { cbn [fields ProfileForm]. rewrite ProfileForm_init_eq.
    apply list_elem_of_fmap. by exists name. }
  assert (NoDup (fields (ProfileForm models)).*1) as Hnd.
  { cbn [fields ProfileForm]. rewrite ProfileForm_init_eq.
    apply (bool_decide_unpack _). vm_compute. exact I. }
  split; [|split; [reflexivity|split; [reflexivity|]]].
  - unfold form_field. by apply elem_of_list_to_map_1.
  - intros Hblank.
    apply (plain_form_invalid (ProfileForm models) data name
             (set_required true (Person_formfield models name)) [error_required]);
      try done.
    + intros self. apply ModelForm_post_clean_errors_nonempty.
    + by apply required_unanswered.
Qed.

(** ** ProcessMembershipRequestForm *)

Section ProcessMembershipRequestForm_properties.
Context (models : Models) (db : Database) (data : QueryDict).

Local Abbreviation form := (ProcessMembershipRequestForm models db).
Local Abbreviation username_field :=
  (mkField true (CharField true [UsernameValidator models])).
Local Abbreviation person_id_field := (mkField true (CharField true [])).
Local Abbreviation instruments_field :=
  (mkField false (ModelMultipleChoiceField (Instrument_pks db) (Instrument_valid_pk models))).

(** [clean_username] on the state [_clean_fields] calls it in. *)
Lemma clean_username_eq self value :
  cleaned_data self !! "username" = Some value →
  clean_username db self =
    (if User_exists db value then Exc (EValidationError [username_exists]) else Ok PyNone, []).
Proof.
  intros H. unfold clean_username, getitem. rewrite H. cbn.
  destruct (User_exists db value); reflexivity.
Qed.

(** [clean_person_id] on the state [_clean_fields] calls it in. *)
Lemma clean_person_id_eq self value :
  cleaned_data self !! "person_id" = Some value →
  clean_person_id models db self =
    (if Person_exists db value
     then Exc (EValidationError [Person_not_unique models]) else Ok PyNone, []).
Proof.
  intros H. unfold clean_person_id, getitem, Person_validate_person_id_unique. rewrite H. cbn.
  destruct (Person_exists db value); reflexivity.
Qed.

(** The round of [username]. *)
Lemma username_round self :
  clean_field form data self ("username", username_field) =
    (Ok match Field_clean username_field data "username" with
        | inl errs => add_error (Some "username") errs self
        | inr value =>
            if User_exists db value
            then add_error (Some "username") [username_exists]
                   (mkFormState (<["username" := value]> (cleaned_data self)) (errors self))
            else mkFormState (<["username" := PyNone]> (cleaned_data self)) (errors self)
        end, []).
Proof.
  unfold clean_field. destruct (Field_clean username_field data "username") as [errs|value];
    [reflexivity|].
  cbn [clean_name ProcessMembershipRequestForm]. rewrite bool_decide_eq_true_2 by reflexivity.
  rewrite (clean_username_eq _ value) by apply lookup_insert_eq.
  destruct (User_exists db value); [reflexivity|].
  cbn [cleaned_data errors]. by rewrite insert_insert_eq.
Qed.

(** The round of [person_id]. *)
Lemma person_id_round self :
  clean_field form data self ("person_id", person_id_field) =
    (Ok match Field_clean person_id_field data "person_id" with
        | inl errs => add_error (Some "person_id") errs self
        | inr value =>
            if Person_exists db value
            then add_error (Some "person_id") [Person_not_unique models]
                   (mkFormState (<["person_id" := value]> (cleaned_data self)) (errors self))
            else mkFormState (<["person_id" := PyNone]> (cleaned_data self)) (errors self)
        end, []).
Proof.
  unfold clean_field. destruct (Field_clean person_id_field data "person_id") as [errs|value];
    [reflexivity|].
  cbn [clean_name ProcessMembershipRequestForm].
  rewrite bool_decide_eq_false_2 by discriminate.
  rewrite bool_decide_eq_true_2 by reflexivity.
  rewrite (clean_person_id_eq _ value) by apply lookup_insert_eq.
  destruct (Person_exists db value); [reflexivity|].
  cbn [cleaned_data errors]. by rewrite insert_insert_eq.
Qed.

(** The round of [instruments]. *)
Lemma instruments_round self :
  clean_field form data self ("instruments", instruments_field) =
    (Ok (own_clean_round data self ("instruments", instruments_field)), []).
Proof.
  unfold clean_field, own_clean_round. cbn [fst snd].
  destruct (Field_clean instruments_field data "instruments") as [errs|value];
    [reflexivity|].
  cbn [clean_name ProcessMembershipRequestForm].
  rewrite !bool_decide_eq_false_2 by discriminate. reflexivity.
Qed.

(** [full_clean] of the form always completes; what it leaves under the three
    names is decided field by field. *)
Lemma ProcessMembershipRequestForm_outcome :
  ∃ self,
    BaseForm_full_clean form data = (Ok self, [])
    ∧ (cleaned_data self !! "username", errors self !! "username")
      = match Field_clean username_field data "username" with
        | inl errs => (None, Some errs)
        | inr value =>
            if User_exists db value then (None, Some [username_exists])
            else (Some PyNone, None)
        end
    ∧ (cleaned_data self !! "person_id", errors self !! "person_id")
      = match Field_clean person_id_field data "person_id" with
        | inl errs => (None, Some errs)
        | inr value =>
            if Person_exists db value then (None, Some [Person_not_unique models])
            else (Some PyNone, None)
        end
    ∧ (cleaned_data self !! "instruments", errors self !! "instruments")
      = match Field_clean instruments_field data "instruments" with
        | inl errs => (None, Some errs)
        | inr value => (Some value, None)
        end
    ∧ (errors self !! "username" = None → errors self !! "person_id" = None →
       errors self !! "instruments" = None → errors self = ∅).
Proof.
  unfold BaseForm_full_clean, BaseForm_clean_fields.
  cbn [fields ProcessMembershipRequestForm for_].
  rewrite username_round, Py_bind_ok, person_id_round, Py_bind_ok, instruments_round,
    Py_bind_ok.
  unfold own_clean_round. cbn [fst snd].
  generalize (Field_clean username_field data "username").
  generalize (Field_clean person_id_field data "person_id").
  generalize (Field_clean instruments_field data "instruments").
  intros ri rp ru. rewrite Py_ret_eq, Py_bind_ok.
  unfold BaseForm_clean_form. cbn [clean post_clean ProcessMembershipRequestForm].
  unfold BaseForm_clean, BaseForm_post_clean. rewrite !Py_ret_eq, Py_bind_ok.
  eexists. split; [reflexivity|].
  cbn [cleaned_data errors].
  destruct ru as [eu|vu]; [|destruct (User_exists db vu)];
    (destruct rp as [ep|vp]; [|destruct (Person_exists db vp)]);
    destruct ri as [ei|vi];
    unfold add_error; cbn [cleaned_data errors default];
    repeat split; intros; simplify_map_eq; try reflexivity.
Qed.

(** What the text field of [username] makes of a submitted value: it is
    stripped, and rejected when empty or when a validator objects. *)
Lemma text_field_cases vs name u :
  QueryDict_get data name = Some u →
  (∃ errs, errs ≠ [] ∧ Field_clean (mkField true (CharField true vs)) data name = inl errs)
  ∨ Field_clean (mkField true (CharField true vs)) data name = inr (PyStr (strip u)).
Proof.
  intros Hu. unfold Field_clean. cbn [kind required]. rewrite Hu. unfold CharField_clean.
  cbn [default from_option id]. case_bool_decide.
  { left. eexists. split; [|reflexivity]. discriminate. }
  destruct (run_validators _ (strip u)) as [|e errs]; [by right|].
  left. eexists. split; [|reflexivity]. discriminate.
Qed.

(** C7: a membership request whose username is already an account is
    rejected with an error of the field [username] (the message of
    [clean_username] when the username is well-formed); one whose person-id is
    already used is rejected with the error the validator of the model raises,
    an error of the field [person_id]; the two are recorded under different
    fields, each only for its own cause; and an empty selection of instruments
    is accepted as the empty queryset. *)
Theorem ProcessMembershipRequestForm_rejections :
  ∃ self,
    BaseForm_full_clean form data = (Ok self, [])
    ∧ BaseForm_is_valid form data = (Ok (bool_decide (errors self = ∅)), [])
    ∧ (∀ u, QueryDict_get data "username" = Some u →
            strip u ∈ User_usernames db →
            errors self ≠ ∅
            ∧ cleaned_data self !! "username" = None
            ∧ ∃ errs, errors self !! "username" = Some errs ∧ errs ≠ []
                      ∧ (Field_clean username_field data "username" = inr (PyStr (strip u)) →
                         errs = [username_exists]))
    ∧ (∀ p, QueryDict_get data "person_id" = Some p →
            strip p ∈ Person_person_ids db →
            errors self ≠ ∅
            ∧ cleaned_data self !! "person_id" = None
            ∧ ∃ errs, errors self !! "person_id" = Some errs ∧ errs ≠ []
                      ∧ (Field_clean person_id_field data "person_id" = inr (PyStr (strip p)) →
                         errs = [Person_not_unique models]))
    ∧ (∀ value, Field_clean username_field data "username" = inr value →
                User_exists db value = false →
                errors self !! "username" = None)
    ∧ (∀ value, Field_clean person_id_field data "person_id" = inr value →
                Person_exists db value = false →
                errors self !! "person_id" = None)
    ∧ (QueryDict_getlist data "instruments" = [] →
       cleaned_data self !! "instruments" = Some (PyQuerySet [])
       ∧ errors self !! "instruments" = None
       ∧ (errors self !! "username" = None → errors self !! "person_id" = None →
          errors self = ∅)).
Proof.
  destruct ProcessMembershipRequestForm_outcome as (self & Hrun & Hu & Hp & Hi & Hvalid).
  exists self. split; [exact Hrun|].
  split; [unfold BaseForm_is_valid; rewrite Hrun, Py_bind_ok; reflexivity|].
  split; [|split; [|split; [|split]]].
  - intros u Hget Htaken.
    destruct (text_field_cases [UsernameValidator models] "username" u Hget)
      as [(errs & Hne & Hclean)|Hclean]; rewrite Hclean in Hu.
    + injection Hu as Hc He. split; [by eapply errors_lookup_nonempty|].
      split; [done|]. exists errs. split; [done|]. split; [done|].
      rewrite Hclean. discriminate.
    + cbn [User_exists] in Hu. rewrite bool_decide_eq_true_2 in Hu by done.
      injection Hu as Hc He. split; [by eapply errors_lookup_nonempty|].
      split; [done|]. exists [username_exists]. done.
  - intros p Hget Hused.
    destruct (text_field_cases [] "person_id" p Hget)
      as [(errs & Hne & Hclean)|Hclean]; rewrite Hclean in Hp.
    + injection Hp as Hc He. split; [by eapply errors_lookup_nonempty|].
      split; [done|]. exists errs. split; [done|]. split; [done|].
      rewrite Hclean. discriminate.
    + cbn [Person_exists] in Hp. rewrite bool_decide_eq_true_2 in Hp by done.
      injection Hp as Hc He. split; [by eapply errors_lookup_nonempty|].
      split; [done|]. exists [Person_not_unique models]. done.
  - intros value Hclean Hfresh. rewrite Hclean, Hfresh in Hu. by injection Hu.
  - intros value Hclean Hfresh. rewrite Hclean, Hfresh in Hp. by injection Hp.
  - intros Hnone.
    assert (Field_clean instruments_field data "instruments" = inr (PyQuerySet [])) as Hclean.
    { unfold Field_clean. cbn [kind required]. by rewrite Hnone. }
    rewrite Hclean in Hi. injection Hi as Hc He. split; [done|]. split; [done|].
    intros H1 H2. by apply Hvalid.
Qed.

(** C8: when a membership request validates, the cleaned value of [username]
    and that of [person_id] are [None], not the submitted text: on their
    success paths [clean_username] and [clean_person_id] return nothing, and
    [_clean_fields] stores what they return. *)
Theorem ProcessMembershipRequestForm_cleaned_None self :
  fst (BaseForm_full_clean form data) = Ok self →
  errors self = ∅ →
  cleaned_data self !! "username" = Some PyNone
  ∧ cleaned_data self !! "person_id" = Some PyNone
  ∧ (∀ state value, cleaned_data state !! "username" = Some value →
                    User_exists db value = false →
                    clean_username db state = (Ok PyNone, []))
  ∧ (∀ state value, cleaned_data state !! "person_id" = Some value →
                    Person_exists db value = false →
                    clean_person_id models db state = (Ok PyNone, [])).
Proof.
  destruct ProcessMembershipRequestForm_outcome as (self' & Hrun & Hu & Hp & _).
  rewrite Hrun. cbn [fst]. intros [= <-] Hvalid.
  rewrite Hvalid, lookup_empty in Hu, Hp.
  split; [|split; [|split]].
  - destruct (Field_clean username_field data "username") as [errs|value];
      [discriminate|].
    destruct (User_exists db value); [discriminate|]. by injection Hu.
  - destruct (Field_clean person_id_field data "person_id") as [errs|value];
      [discriminate|].
    destruct (Person_exists db value); [discriminate|]. by injection Hp.
  - intros state value Hvalue Hfresh. by rewrite (clean_username_eq state value), Hfresh.
  - intros state value Hvalue Hfresh. by rewrite (clean_person_id_eq state value), Hfresh.
Qed.

End ProcessMembershipRequestForm_properties.

(** ** MyPasswordChangeForm *)

Lemma call_let_return (m : Py pyval) : call (let_ m return_) = m.
Proof.
  destruct m as [[v|e] t]; cbn; [|reflexivity]. by rewrite app_nil_r.
Qed.

(** A method that agrees with the inherited one changes nothing. *)
Lemma full_clean_override base name method inherited data :
  clean_name base name = Some inherited →
  (∀ self, method self = inherited self) →
  BaseForm_full_clean (override_clean_name base name method) data
  = BaseForm_full_clean base data.
Proof.
  intros Hbase Hsame. unfold BaseForm_full_clean, BaseForm_clean_fields, BaseForm_clean_form.
  cbn [fields clean post_clean override_clean_name].
  assert (∀ fs self,
            for_ fs (clean_field (override_clean_name base name method) data) self
            = for_ fs (clean_field base data) self) as ->; [|reflexivity].
  induction fs as [|[n f] fs IH]; intros self; [reflexivity|].
  cbn [for_].
  assert (clean_field (override_clean_name base name method) data self (n, f)
          = clean_field base data self (n, f)) as ->.
  { unfold clean_field. destruct (Field_clean f data n); [reflexivity|].
    cbn [clean_name override_clean_name]. case_bool_decide as Hn; [|reflexivity].
    subst n. rewrite Hbase, Hsame. reflexivity. }
  destruct (clean_field base data self (n, f)) as [[self'|e] t]; [|reflexivity].
  unfold mbind, Py_bind. by rewrite IH.
Qed.

Section MyPasswordChangeForm_properties.
Context (hasher : pyval → string → bool)
        (password_validators : pyval → list ValidationError) (user : User).

Local Abbreviation password_field := (mkField true (CharField false [])).
Local Abbreviation ldap_user :=
  ("uid=" +:+ username user +:+ ",ou=people,dc=esmgquadrivium,dc=nl").

(** The method, for an account that is not marked as LDAP-only. *)
Lemma clean_old_password_local ldap self :
  password user ≠ "invalid" →
  clean_old_password ldap hasher user self
  = PasswordChangeForm_clean_old_password hasher user self.
Proof.
  intros H. unfold clean_old_password. rewrite bool_decide_eq_false_2 by done.
  apply call_let_return.
Qed.

(** The method, for an account marked as LDAP-only. *)
Lemma clean_old_password_ldap ldap self old_password :
  password user = "invalid" →
  cleaned_data self !! "old_password" = Some old_password →
  clean_old_password ldap hasher user self =
    (match fst (try_ldap_bind ldap ldap_user old_password) with
     | Ok bound =>
         if truthy bound then Ok old_password
         else Exc (EValidationError [password_incorrect])
     | Exc e => Exc e
     end,
     snd (try_ldap_bind ldap ldap_user old_password)).
Proof.
  intros Hsentinel Hold. unfold clean_old_password, getitem.
  rewrite bool_decide_eq_true_2 by done. rewrite Hold. cbn [let_ mret Py_ret].
  destruct (try_ldap_bind ldap ldap_user old_password) as [[bound|e] t]; cbn;
    [|reflexivity].
  destruct (truthy bound); cbn; by rewrite ?app_nil_r.
Qed.

(** The inherited method compares locally and touches nothing else. *)
Lemma PasswordChangeForm_clean_old_password_eq self old_password :
  cleaned_data self !! "old_password" = Some old_password →
  PasswordChangeForm_clean_old_password hasher user self =
    (if hasher old_password (password user) then Ok old_password
     else Exc (EValidationError [password_incorrect]),
     [EvCheckPassword old_password]).
Proof.
  intros Hold. unfold PasswordChangeForm_clean_old_password, getitem, User_check_password.
  rewrite Hold. cbn. destruct (hasher old_password (password user)); reflexivity.
Qed.

(** [clean_new_password2] has no effect outside the form and raises nothing
    but [ValidationError]. *)
Lemma SetPasswordForm_clean_new_password2_cases self :
  (∃ value, SetPasswordForm_clean_new_password2 password_validators self = (Ok value, []))
  ∨ (∃ errs, SetPasswordForm_clean_new_password2 password_validators self
             = (Exc (EValidationError errs), [])).
Proof.
  unfold SetPasswordForm_clean_new_password2.
  destruct (truthy _ && truthy _ && negb _); cbn; [by right; eexists|].
  destruct (password_validators _); cbn; [by left; eexists|by right; eexists].
Qed.

(** [full_clean] of a password-change form, whatever its [clean_old_password]
    is: the round of the old password decides what the form holds under
    "old_password" and which events happen; the rest of the validation
    ([rest]) has no effect outside the form and leaves that name alone. *)
Lemma password_form_full_clean data :
  ∃ rest : FormState → FormState,
    (∀ self,
       cleaned_data (rest self) !! "old_password" = cleaned_data self !! "old_password"
       ∧ errors (rest self) !! "old_password" = errors self !! "old_password")
    ∧ ∀ hasher0 method,
        BaseForm_full_clean
          (override_clean_name (PasswordChangeForm hasher0 password_validators user)
             "old_password" method) data
        = match Field_clean password_field data "old_password" with
          | inl errs =>
              (Ok (rest (add_error (Some "old_password") errs (mkFormState ∅ ∅))), [])
          | inr value =>
              match method (mkFormState (<["old_password" := value]> ∅) ∅) with
              | (Ok value', t) =>
                  (Ok (rest (mkFormState (<["old_password" := value']> ∅) ∅)), t)
              | (Exc (EValidationError errs), t) =>
                  (Ok (rest (add_error (Some "old_password") errs
                               (mkFormState (<["old_password" := value]> ∅) ∅))), t)
              | (Exc e, t) => (Exc e, t)
              end
          end.
Proof.
  set (round3 := λ self : FormState,
         match Field_clean password_field data "new_password2" with
         | inl errs => add_error (Some "new_password2") errs self
         | inr value =>
             let self := mkFormState (<["new_password2" := value]> (cleaned_data self))
                                     (errors self) in
             match fst (SetPasswordForm_clean_new_password2 password_validators self) with
             | Ok value' =>
                 mkFormState (<["new_password2" := value']> (cleaned_data self)) (errors self)
             | Exc (EValidationError errs) => add_error (Some "new_password2") errs self
             | Exc _ => self
             end
         end).
  set (rest := λ self : FormState,
         let self := round3 (own_clean_round data self ("new_password1", password_field)) in
         mkFormState (cleaned_data self) (errors self)).
  exists rest. split.
  - intros self. unfold rest. cbn [cleaned_data errors].
    assert (∀ st, cleaned_data (round3 st) !! "old_password" = cleaned_data st !! "old_password"
                  ∧ errors (round3 st) !! "old_password" = errors st !! "old_password")
      as Hround3.
    { intros st. unfold round3.
      generalize (Field_clean password_field data "new_password2"). intros [e2|v2].
      - apply add_error_lookup_ne. discriminate.
      - cbv zeta.
        destruct (fst (SetPasswordForm_clean_new_password2 _ _)) as [v'|[errs| | |]];
          cbn [cleaned_data errors];
          rewrite ?lookup_insert_ne by discriminate; try done.
        destruct (add_error_lookup_ne "new_password2" errs
                    (mkFormState (<["new_password2" := v2]> (cleaned_data st)) (errors st))
                    "old_password") as [-> ->]; [discriminate|].
        cbn [cleaned_data errors]. by rewrite lookup_insert_ne by discriminate. }
    destruct (Hround3 (own_clean_round data self ("new_password1", password_field)))
      as [-> ->].
    unfold own_clean_round. cbn [fst snd].
    generalize (Field_clean password_field data "new_password1"). intros [e1|v1].
    + apply add_error_lookup_ne. discriminate.
    + cbn [cleaned_data errors]. by rewrite lookup_insert_ne by discriminate.
  - intros hasher0 method.
    assert (∀ self form',
              form' = override_clean_name (PasswordChangeForm hasher0 password_validators user)
                        "old_password" method →
              for_ [("new_password1", password_field); ("new_password2", password_field)]
                   (clean_field form' data) self ≫= (λ self,
              BaseForm_clean_form form' self ≫= (λ self,
              mret (post_clean form' self)))
              = (Ok (rest self), [])) as Hrest.
    { intros self form' ->. cbn [for_].
      assert (∀ st, clean_field
                      (override_clean_name (PasswordChangeForm hasher0 password_validators user)
                         "old_password" method) data st ("new_password1", password_field)
                    = (Ok (own_clean_round data st ("new_password1", password_field)), []))
        as ->.
      { intros st. unfold clean_field, own_clean_round. cbn [fst snd].
        destruct (Field_clean password_field data "new_password1"); reflexivity. }
      rewrite Py_bind_ok.
      assert (∀ st, clean_field
                      (override_clean_name (PasswordChangeForm hasher0 password_validators user)
                         "old_password" method) data st ("new_password2", password_field)
                    = (Ok (round3 st), [])) as ->.
      { intros st. unfold clean_field, round3.
        destruct (Field_clean password_field data "new_password2") as [e2|v2];
          [reflexivity|].
        cbn [clean_name override_clean_name PasswordChangeForm].
        rewrite bool_decide_eq_false_2 by discriminate.
        rewrite bool_decide_eq_true_2 by reflexivity.
        cbv zeta.
        destruct (SetPasswordForm_clean_new_password2_cases
                    (mkFormState (<["new_password2" := v2]> (cleaned_data st)) (errors st)))
          as [[value' ->]|[errs ->]]; reflexivity. }
      rewrite Py_bind_ok, Py_ret_eq, Py_bind_ok.
      unfold BaseForm_clean_form. cbn [clean post_clean override_clean_name PasswordChangeForm].
      unfold BaseForm_clean, BaseForm_post_clean. rewrite !Py_ret_eq, Py_bind_ok.
      reflexivity. }
    unfold BaseForm_full_clean, BaseForm_clean_fields.
    cbn [fields override_clean_name PasswordChangeForm].
    rewrite for_cons, Py_bind_assoc.
    assert (clean_field
              (override_clean_name (PasswordChangeForm hasher0 password_validators user)
                 "old_password" method) data (mkFormState ∅ ∅)
              ("old_password", password_field)
            = match Field_clean password_field data "old_password" with
              | inl errs => (Ok (add_error (Some "old_password") errs (mkFormState ∅ ∅)), [])
              | inr value =>
                  match method (mkFormState (<["old_password" := value]> ∅) ∅) with
                  | (Ok value', t) =>
                      (Ok (mkFormState (<["old_password" := value']> ∅) ∅), t)
                  | (Exc (EValidationError errs), t) =>
                      (Ok (add_error (Some "old_password") errs
                             (mkFormState (<["old_password" := value]> ∅) ∅)), t)
                  | (Exc e, t) => (Exc e, t)
                  end
              end) as ->.
    { unfold clean_field.
      destruct (Field_clean password_field data "old_password") as [errs|value];
        [reflexivity|].
      cbn [clean_name override_clean_name]. rewrite bool_decide_eq_true_2 by reflexivity.
      cbn [cleaned_data errors].
      destruct (method _) as [[value'|[errs| | |]] t]; rewrite ?insert_insert_eq;
        reflexivity. }
    destruct (Field_clean password_field data "old_password") as [errs|value].
    + rewrite Py_bind_ok. by apply Hrest.
    + destruct (method _) as [[value'|e] t].
      * rewrite Py_bind_trace, (Hrest _ _ eq_refl).
        cbn [fst snd]. by rewrite app_nil_r.
      * destruct e as [errs| | |]; try reflexivity.
        rewrite Py_bind_trace, (Hrest _ _ eq_refl).
        cbn [fst snd]. by rewrite app_nil_r.
Qed.

(** The password fields keep the submitted text as it is. *)
Lemma password_field_clean data name p :
  QueryDict_get data name = Some p →
  p ≠ "" →
  contains_nul p = false →
  Field_clean password_field data name = inr (PyStr p).
Proof.
  intros Hget Hne Hnul. unfold Field_clean. cbn [kind required]. rewrite Hget.
  unfold CharField_clean. cbn [default from_option id].
  rewrite bool_decide_eq_false_2 by done.
  unfold run_validators. cbn [app omap list_omap]. unfold ProhibitNullCharactersValidator.
  by rewrite Hnul.
Qed.

(** The events of a validation run of the form of an LDAP-only account are
    those of the bind helper. *)
Lemma MyPasswordChangeForm_ldap_trace ldap data :
  password user = "invalid" →
  Forall (λ ev, is_ldap_event ev = true)
         (snd (BaseForm_full_clean
                 (MyPasswordChangeForm ldap hasher password_validators user) data)).
Proof.
  intros Hsentinel. destruct (password_form_full_clean data) as (rest & _ & Hrun).
  unfold MyPasswordChangeForm. rewrite Hrun.
  destruct (Field_clean password_field data "old_password") as [errs|value];
    [constructor|].
  rewrite (clean_old_password_ldap ldap _ value Hsentinel) by apply lookup_insert_eq.
  pose proof (try_ldap_bind_trace_ldap ldap ldap_user value) as Htrace.
  destruct (try_ldap_bind ldap ldap_user value) as [[bound|e] t]; cbn [fst snd] in *.
  - by destruct (truthy bound).
  - by destruct e.
Qed.

End MyPasswordChangeForm_properties.

(** C1: for an account whose stored password is "invalid", the validation of
    the old password is decided by [try_ldap_bind] alone, called with
    "uid=<username>,ou=people,dc=esmgquadrivium,dc=nl" and the submitted old
    password: when the helper returns [False], [clean_old_password] raises the
    validation error with code "password_incorrect" and the form records it;
    when it returns [True], the cleaned old password is the submitted value;
    an exception of the helper propagates.  The local comparison of the base
    class is never made: the run has no other event than those of the helper
    and does not depend on the password hasher. *)
Theorem MyPasswordChangeForm_ldap_decides ldap hasher password_validators user data :
  password user = "invalid" →
  (∀ hasher',
     BaseForm_full_clean (MyPasswordChangeForm ldap hasher' password_validators user) data
     = BaseForm_full_clean (MyPasswordChangeForm ldap hasher password_validators user) data)
  ∧ Forall (λ ev, is_check_password ev = false)
           (snd (BaseForm_full_clean
                   (MyPasswordChangeForm ldap hasher password_validators user) data))
  ∧ ∀ p,
      QueryDict_get data "old_password" = Some p →
      p ≠ "" →
      contains_nul p = false →
      let bound :=
        try_ldap_bind ldap
          ("uid=" +:+ username user +:+ ",ou=people,dc=esmgquadrivium,dc=nl") (PyStr p) in
      let run :=
        BaseForm_full_clean (MyPasswordChangeForm ldap hasher password_validators user) data in
      snd run = snd bound
      ∧ (fst bound = Ok (PyBool false) →
         fst (clean_old_password ldap hasher user
                (mkFormState (<["old_password" := PyStr p]> ∅) ∅))
           = Exc (EValidationError [password_incorrect])
         ∧ code password_incorrect = Some "password_incorrect"
         ∧ ∃ self, fst run = Ok self
                   ∧ errors self !! "old_password" = Some [password_incorrect]
                   ∧ cleaned_data self !! "old_password" = None)
      ∧ (fst bound = Ok (PyBool true) →
         ∃ self, fst run = Ok self
                 ∧ errors self !! "old_password" = None
                 ∧ cleaned_data self !! "old_password" = Some (PyStr p))
      ∧ (∀ e, fst bound = Exc e → (∀ errs, e ≠ EValidationError errs) → fst run = Exc e).
Proof.
  intros Hsentinel.
  destruct (password_form_full_clean password_validators user data) as (rest & Hframe & Hrun).
  split; [|split].
  - intros hasher'. unfold MyPasswordChangeForm. rewrite !Hrun.
    destruct (Field_clean _ data "old_password") as [errs|value]; [reflexivity|].
    rewrite (clean_old_password_ldap hasher' user ldap _ value Hsentinel)
      by apply lookup_insert_eq.
    rewrite (clean_old_password_ldap hasher user ldap _ value Hsentinel)
      by apply lookup_insert_eq.
    reflexivity.
  - eapply Forall_impl; [by apply MyPasswordChangeForm_ldap_trace|].
    intros [] H; done.
  - intros p Hget Hne Hnul bound run. subst run. unfold MyPasswordChangeForm.
    rewrite Hrun, (password_field_clean data "old_password" p Hget Hne Hnul).
    rewrite (clean_old_password_ldap hasher user ldap _ (PyStr p) Hsentinel)
      by apply lookup_insert_eq.
    fold bound. destruct bound as [[b|e] t]. cbn [fst snd].
    + split; [by destruct (truthy b)|]. split; [|split].
      * intros [= ->]. cbn [truthy]. split; [reflexivity|]. split; [reflexivity|].
        eexists. split; [reflexivity|].
        destruct (Hframe (add_error (Some "old_password") [password_incorrect]
                            (mkFormState (<["old_password" := PyStr p]> ∅) ∅))) as [-> ->].
        destruct (add_error_lookup_eq "old_password" [password_incorrect]
                    (mkFormState (<["old_password" := PyStr p]> ∅) ∅)) as [-> ->].
        cbn [errors]. by rewrite lookup_empty.
      * intros [= ->]. cbn [truthy]. eexists. split; [reflexivity|].
        destruct (Hframe (mkFormState (<["old_password" := PyStr p]> ∅) ∅)) as [-> ->].
        cbn [errors cleaned_data]. by rewrite lookup_empty, lookup_insert_eq.
      * intros e. discriminate.
    + cbn [fst snd]. split; [by destruct e|]. split; [discriminate|]. split; [discriminate|].
      intros e' [= <-] Hnv. destruct e; try reflexivity. by destruct (Hnv error_list).
Qed.

(** C4: for an account whose stored password is not "invalid", the form
    validates exactly as the base class does, by the local comparison; the
    directory is never contacted, so the outcome is the same for any two
    behaviours of the directory service. *)
Theorem MyPasswordChangeForm_local_only ldap ldap' hasher password_validators user data :
  password user ≠ "invalid" →
  BaseForm_full_clean (MyPasswordChangeForm ldap hasher password_validators user) data
  = BaseForm_full_clean (PasswordChangeForm hasher password_validators user) data
  ∧ BaseForm_full_clean (MyPasswordChangeForm ldap hasher password_validators user) data
    = BaseForm_full_clean (MyPasswordChangeForm ldap' hasher password_validators user) data
  ∧ Forall (λ ev, is_ldap_event ev = false)
           (snd (BaseForm_full_clean
                   (MyPasswordChangeForm ldap hasher password_validators user) data))
  ∧ ∀ self, clean_old_password ldap hasher user self
            = PasswordChangeForm_clean_old_password hasher user self.
Proof.
  intros Hlocal.
  assert (∀ d, BaseForm_full_clean (MyPasswordChangeForm d hasher password_validators user) data
               = BaseForm_full_clean (PasswordChangeForm hasher password_validators user) data)
    as Hbase.
  { intros d. unfold MyPasswordChangeForm.
    apply (full_clean_override _ _ _ (PasswordChangeForm_clean_old_password hasher user));
      [reflexivity|].
    intros self. by apply clean_old_password_local. }
  split; [apply Hbase|]. split; [by rewrite !Hbase|]. split.
  - rewrite Hbase.
    rewrite <- (full_clean_override (PasswordChangeForm hasher password_validators user)
                  "old_password" (PasswordChangeForm_clean_old_password hasher user)
                  (PasswordChangeForm_clean_old_password hasher user) data eq_refl)
      by reflexivity.
    destruct (password_form_full_clean password_validators user data) as (rest & _ & Hrun).
    rewrite Hrun.
    destruct (Field_clean _ data "old_password") as [errs|value]; [constructor|].
    rewrite (PasswordChangeForm_clean_old_password_eq hasher user _ value)
      by apply lookup_insert_eq.
    destruct (hasher value (password user)); cbn [snd]; repeat constructor.
  - intros self. by apply clean_old_password_local.
Qed.

(** * The properties at work on the sample data *)

(** A wrong password for the one account of the sample directory. *)
Lemma try_ldap_bind_result_sample :
  (fst (try_ldap_bind sample_directory "uid=ada,ou=people,dc=esmgquadrivium,dc=nl"
          (PyStr "wrong")) = Ok (PyBool false)
     ↔ bind_error sample_directory "uid=ada,ou=people,dc=esmgquadrivium,dc=nl"
         (PyStr "wrong") = Some LDAPInvalidCredentialsResult)
  ∧ (fst (try_ldap_bind sample_directory "uid=ada,ou=people,dc=esmgquadrivium,dc=nl"
            (PyStr "wrong")) = Ok (PyBool true)
     ↔ bind_error sample_directory "uid=ada,ou=people,dc=esmgquadrivium,dc=nl"
         (PyStr "wrong") = None)
  ∧ (∀ e, bind_error sample_directory "uid=ada,ou=people,dc=esmgquadrivium,dc=nl"
            (PyStr "wrong") = Some e →
          e ≠ LDAPInvalidCredentialsResult →
          fst (try_ldap_bind sample_directory "uid=ada,ou=people,dc=esmgquadrivium,dc=nl"
                 (PyStr "wrong")) = Exc e).
Proof.
  apply (try_ldap_bind_result sample_directory
           "uid=ada,ou=people,dc=esmgquadrivium,dc=nl" (PyStr "wrong")).
  reflexivity.
Defined.

(** A bind that fails with another error than invalid credentials. *)
Lemma try_ldap_bind_unbinds_once_sample :
  unbind_count (snd (try_ldap_bind sample_directory_down "uid=ada" (PyStr "secret"))) = 1
  ∧ ∃ before, snd (try_ldap_bind sample_directory_down "uid=ada" (PyStr "secret"))
              = before ++ [EvBind "uid=ada" (PyStr "secret"); EvUnbind]
              ∧ EvUnbind ∉ before.
Proof.
  apply (try_ldap_bind_unbinds_once sample_directory_down "uid=ada" (PyStr "secret")).
  vm_compute. apply elem_of_cons. right. apply elem_of_cons. left. reflexivity.
Defined.

(** An LDAP-only account submits a wrong old password. *)
Lemma MyPasswordChangeForm_ldap_decides_sample :
  ∃ self,
    fst (BaseForm_full_clean
           (MyPasswordChangeForm sample_directory sample_hasher sample_password_validators
              sample_ldap_user)
           (sample_password_change "wrong")) = Ok self
    ∧ errors self !! "old_password" = Some [password_incorrect]
    ∧ cleaned_data self !! "old_password" = None.
Proof.
  destruct (MyPasswordChangeForm_ldap_decides sample_directory sample_hasher
              sample_password_validators sample_ldap_user (sample_password_change "wrong")
              eq_refl) as (_ & _ & H).
  destruct (H "wrong") as (_ & Hfalse & _).
  - vm_compute. reflexivity.
  - discriminate.
  - reflexivity.
  - apply Hfalse. vm_compute. reflexivity.
Defined.

(** A local account changes its password while the directory is down. *)
Lemma MyPasswordChangeForm_local_only_sample :
  BaseForm_full_clean
    (MyPasswordChangeForm sample_directory sample_hasher sample_password_validators
       sample_local_user)
    (sample_password_change "secret")
  = BaseForm_full_clean
      (MyPasswordChangeForm sample_directory_down sample_hasher sample_password_validators
         sample_local_user)
      (sample_password_change "secret").
Proof.
  apply (MyPasswordChangeForm_local_only sample_directory sample_directory_down
           sample_hasher sample_password_validators sample_local_user
           (sample_password_change "secret")).
  vm_compute. discriminate.
Defined.

(** A subscription without an answer to [is_student]. *)
Lemma SubscribeForm_unanswered_boolean_choice_raises_sample :
  ∃ key, key ∈ SubscribeForm_Meta_boolean_choices
         ∧ BaseForm_is_valid (SubscribeForm sample_models) sample_subscription_unanswered
           = (Exc (KeyError key), []).
Proof.
  apply (SubscribeForm_unanswered_boolean_choice_raises sample_models
           sample_subscription_unanswered "is_student").
  - vm_compute. do 3 (apply elem_of_cons; right). apply elem_of_cons. left. reflexivity.
  - left. vm_compute. reflexivity.
Defined.

(** A complete subscription. *)
Lemma SubscribeForm_boolean_choices_cast_sample :
  ∃ validated,
    fst (BaseForm_clean_fields (SubscribeForm sample_models) sample_subscription
           (mkFormState ∅ ∅)) = Ok validated
    ∧ fst (SubscribeForm_clean validated)
      = Ok (state_of (BaseForm_full_clean (SubscribeForm sample_models) sample_subscription),
            Some (cleaned_data
                    (state_of (BaseForm_full_clean (SubscribeForm sample_models)
                                 sample_subscription))))
    ∧ ∀ field, field ∈ SubscribeForm_Meta_boolean_choices →
        (cleaned_data validated !! field = Some (PyStr "Yes")
         ∧ cleaned_data
             (state_of (BaseForm_full_clean (SubscribeForm sample_models) sample_subscription))
           !! field = Some (PyBool true))
        ∨ (cleaned_data validated !! field = Some (PyStr "No")
           ∧ cleaned_data
               (state_of (BaseForm_full_clean (SubscribeForm sample_models)
                            sample_subscription))
             !! field = Some (PyBool false)).
Proof.
  apply (SubscribeForm_boolean_choices_cast sample_models sample_subscription).
  - vm_compute. reflexivity.
  - vm_compute. reflexivity.
Defined.

(** A subscription with [add_to_chats] unchecked and [is_student]
    unanswered. *)
Lemma SubscribeForm_checkbox_mandatory_sample :
  ∃ key, key ∈ SubscribeForm_Meta_boolean_choices
         ∧ BaseForm_is_valid (SubscribeForm sample_models)
             sample_subscription_unchecked_unanswered
           = (Exc (KeyError key), []).
Proof.
  destruct (SubscribeForm_checkbox_mandatory sample_models
              sample_subscription_unchecked_unanswered "add_to_chats")
    as (_ & _ & _ & _ & Hraises).
  - apply elem_of_cons. left. reflexivity.
  - vm_compute. reflexivity.
  - apply (Hraises "is_student").
    + vm_compute. do 3 (apply elem_of_cons; right). apply elem_of_cons. left. reflexivity.
    + left. vm_compute. reflexivity.
Defined.

(** A profile without an e-mail address, on a model that allows that. *)
Lemma ProfileForm_fields_required_sample :
  BaseForm_is_valid (ProfileForm sample_models) sample_profile = (Ok false, []).
Proof.
  destruct (ProfileForm_fields_required sample_models sample_profile "email")
    as (f & _ & _ & Hkind & Hrejects).
  - apply elem_of_cons. left. reflexivity.
  - apply Hrejects. unfold unanswered. rewrite Hkind. left. vm_compute. reflexivity.
Defined.

(** A membership request for a username that is taken, submitted with a
    no-break space after it. *)
Lemma ProcessMembershipRequestForm_rejections_sample :
  BaseForm_is_valid (ProcessMembershipRequestForm sample_models sample_db)
    sample_request_no_break_space = (Ok false, []).
Proof.
  destruct (ProcessMembershipRequestForm_rejections sample_models sample_db
              sample_request_no_break_space) as (self & _ & Hvalid & Htaken & _).
  rewrite Hvalid. destruct (Htaken ("alice" +:+ chr 0xA0)) as (Hne & _).
  - vm_compute. reflexivity.
  - vm_compute. apply elem_of_cons. left. reflexivity.
  - by rewrite bool_decide_eq_false_2.
Defined.

(** A membership request that validates. *)
Lemma ProcessMembershipRequestForm_cleaned_None_sample :
  cleaned_data
    (state_of (BaseForm_full_clean (ProcessMembershipRequestForm sample_models sample_db)
                 sample_request))
  !! "username" = Some PyNone.
Proof.
  apply (ProcessMembershipRequestForm_cleaned_None sample_models sample_db sample_request).
  - vm_compute. reflexivity.
  - vm_compute. reflexivity.
Defined.

(** * The forms run on the sample data *)

Example try_ldap_bind_accepts :
  try_ldap_bind sample_directory "uid=ada,ou=people,dc=esmgquadrivium,dc=nl"
    (PyStr "correct horse")
  = (Ok (PyBool true),
     [EvGetConnection;
      EvBind "uid=ada,ou=people,dc=esmgquadrivium,dc=nl" (PyStr "correct horse");
      EvUnbind]).
Proof. vm_compute. reflexivity. Qed.

Example try_ldap_bind_refuses :
  try_ldap_bind sample_directory "uid=ada,ou=people,dc=esmgquadrivium,dc=nl" (PyStr "wrong")
  = (Ok (PyBool false),
     [EvGetConnection;
      EvBind "uid=ada,ou=people,dc=esmgquadrivium,dc=nl" (PyStr "wrong");
      EvUnbind]).
Proof. vm_compute. reflexivity. Qed.

Example try_ldap_bind_fails :
  try_ldap_bind sample_directory_down "uid=ada" (PyStr "secret")
  = (Exc (OtherException "LDAPSocketOpenError"),
     [EvGetConnection; EvBind "uid=ada" (PyStr "secret"); EvUnbind]).
Proof. vm_compute. reflexivity. Qed.

Example password_change_by_ldap :
  let run :=
    BaseForm_full_clean
      (MyPasswordChangeForm sample_directory sample_hasher sample_password_validators
         sample_ldap_user)
      (sample_password_change "correct horse") in
  cleaned_data (state_of run) !! "old_password" = Some (PyStr "correct horse")
  ∧ errors (state_of run) = ∅
  ∧ snd run = [EvGetConnection;
               EvBind "uid=ada,ou=people,dc=esmgquadrivium,dc=nl" (PyStr "correct horse");
               EvUnbind].
Proof. vm_compute. repeat split. Qed.

Example password_change_locally :
  let run :=
    BaseForm_full_clean
      (MyPasswordChangeForm sample_directory_down sample_hasher sample_password_validators
         sample_local_user)
      (sample_password_change "secret") in
  cleaned_data (state_of run) !! "old_password" = Some (PyStr "secret")
  ∧ errors (state_of run) = ∅
  ∧ snd run = [EvCheckPassword (PyStr "secret")].
Proof. vm_compute. repeat split. Qed.

Example subscription_accepted :
  BaseForm_is_valid (SubscribeForm sample_models) sample_subscription = (Ok true, []).
Proof. vm_compute. reflexivity. Qed.

Example subscription_unanswered_raises :
  BaseForm_is_valid (SubscribeForm sample_models) sample_subscription_unanswered
  = (Exc (KeyError "is_student"), []).
Proof. vm_compute. reflexivity. Qed.

Example subscription_unchecked_unanswered_raises :
  BaseForm_is_valid (SubscribeForm sample_models) sample_subscription_unchecked_unanswered
  = (Exc (KeyError "is_student"), []).
Proof. vm_compute. reflexivity. Qed.

Example subscription_unchecked_rejected :
  BaseForm_is_valid (SubscribeForm sample_models) sample_subscription_unchecked
  = (Ok false, []).
Proof. vm_compute. reflexivity. Qed.

Example request_accepted :
  let run :=
    BaseForm_full_clean (ProcessMembershipRequestForm sample_models sample_db)
      sample_request in
  errors (state_of run) = ∅
  ∧ cleaned_data (state_of run) !! "username" = Some PyNone
  ∧ cleaned_data (state_of run) !! "person_id" = Some PyNone
  ∧ cleaned_data (state_of run) !! "instruments" = Some (PyQuerySet []).
Proof. vm_compute. repeat split. Qed.

Example request_person_id_used :
  errors (state_of (BaseForm_full_clean (ProcessMembershipRequestForm sample_models sample_db)
                      sample_request_used))
  !! "person_id" = Some [Person_not_unique sample_models].
Proof. vm_compute. reflexivity. Qed.

Example request_username_taken :
  errors (state_of (BaseForm_full_clean (ProcessMembershipRequestForm sample_models sample_db)
                      sample_request_taken))
  !! "username" = Some [username_exists].
Proof. vm_compute. reflexivity. Qed.

(** Texts outside ASCII: an accented username that is taken, a taken username
    followed by a no-break space, a used person-id followed by an em space, a
    gender of white space only, and an accented gender. *)
Example request_accented_username_taken :
  let run :=
    BaseForm_full_clean (ProcessMembershipRequestForm sample_models sample_db_accented)
      sample_request_accented in
  errors (state_of run) !! "username" = Some [username_exists]
  ∧ BaseForm_is_valid (ProcessMembershipRequestForm sample_models sample_db_accented)
      sample_request_accented = (Ok false, []).
Proof. vm_compute. split; reflexivity. Qed.

Example request_no_break_space_taken :
  let run :=
    BaseForm_full_clean (ProcessMembershipRequestForm sample_models sample_db)
      sample_request_no_break_space in
  errors (state_of run) !! "username" = Some [username_exists]
  ∧ BaseForm_is_valid (ProcessMembershipRequestForm sample_models sample_db)
      sample_request_no_break_space = (Ok false, []).
Proof. vm_compute. split; reflexivity. Qed.

Example request_em_space_used :
  let run :=
    BaseForm_full_clean (ProcessMembershipRequestForm sample_models sample_db)
      sample_request_em_space in
  errors (state_of run) !! "person_id" = Some [Person_not_unique sample_models]
  ∧ BaseForm_is_valid (ProcessMembershipRequestForm sample_models sample_db)
      sample_request_em_space = (Ok false, []).
Proof. vm_compute. split; reflexivity. Qed.

Example subscription_blank_gender_rejected :
  let run :=
    BaseForm_full_clean (SubscribeForm sample_models) sample_subscription_blank_gender in
  errors (state_of run) !! "gender" = Some [error_required]
  ∧ BaseForm_is_valid (SubscribeForm sample_models) sample_subscription_blank_gender
    = (Ok false, []).
Proof. vm_compute. split; reflexivity. Qed.

Example subscription_accented_gender_kept :
  let run :=
    BaseForm_full_clean (SubscribeForm sample_models) sample_subscription_accented_gender in
  cleaned_data (state_of run) !! "gender" = Some (PyStr "Voilà")
  ∧ errors (state_of run) = ∅.
Proof. vm_compute. split; reflexivity. Qed.

(** * Further properties *)

(** ** The LDAP bind helper *)

(** X1: when opening the connection fails, the failure leaves the helper as
    it is and nothing else happens: no bind is attempted and no connection is
    released ([get_connection] is called before the [try]). *)
Theorem try_ldap_bind_connect_failure ldap user password e :
  connect_error ldap = Some e →
  try_ldap_bind ldap user password = (Exc e, [EvGetConnection])
  ∧ unbind_count (snd (try_ldap_bind ldap user password)) = 0
  ∧ ∀ u p, EvBind u p ∉ snd (try_ldap_bind ldap user password).
Proof.
  intros Hconn. rewrite try_ldap_bind_unfold, Hconn.
  split; [reflexivity|]. split; [reflexivity|].
  intros u p H. apply list_elem_of_singleton in H. discriminate.
Qed.

(** The binds of a call carry the given credentials. *)
Lemma try_ldap_bind_binds ldap user password u p :
  EvBind u p ∈ snd (try_ldap_bind ldap user password) → u = user ∧ p = password.
Proof.
  rewrite try_ldap_bind_unfold.
  destruct (connect_error ldap); cbn [snd]; intros H.
  - apply list_elem_of_singleton in H. discriminate.
  - apply elem_of_cons in H as [H|H]; [discriminate|].
    apply elem_of_cons in H as [H|H]; [by injection H|].
    apply list_elem_of_singleton in H. discriminate.
Qed.

(** X2: the helper binds with the credentials it is given, never with those
    the connection was created with: every bind of a call carries the given
    identity and password, and the call does not depend on the credentials of
    the service account. *)
Theorem try_ldap_bind_credentials ldap user password :
  (∀ u p, EvBind u p ∈ snd (try_ldap_bind ldap user password) →
          u = user ∧ p = password)
  ∧ ∀ service_user' service_password',
      try_ldap_bind
        (mkDirectory (connect_error ldap) service_user' service_password' (bind_error ldap))
        user password
      = try_ldap_bind ldap user password.
Proof.
  split.
  - intros u p. apply try_ldap_bind_binds.
  - intros su sp. by rewrite !try_ldap_bind_unfold.
Qed.

(** ** MyPasswordChangeForm *)

Lemma string_length_app (s1 s2 : string) :
  String.length (s1 +:+ s2) = String.length s1 + String.length s2.
Proof.
  induction s1 as [|a s1 IH]; [reflexivity|].
  change (String a s1 +:+ s2) with (String a (s1 +:+ s2)). cbn [String.length].
  by rewrite IH.
Qed.

Lemma string_app_inj_r (s u1 u2 : string) : u1 +:+ s = u2 +:+ s → u1 = u2.
Proof.
  revert u2. induction u1 as [|a u1 IH]; intros [|b u2] H.
  - reflexivity.
  - apply (f_equal String.length) in H. rewrite !string_length_app in H.
    cbn [String.length] in H. lia.
  - apply (f_equal String.length) in H. rewrite !string_length_app in H.
    cbn [String.length] in H. lia.
  - change (String a (u1 +:+ s) = String b (u2 +:+ s)) in H.
    injection H as -> H. by rewrite (IH u2 H).
Qed.

(** The binds [clean_old_password] performs. *)
Lemma clean_old_password_binds ldap hasher user self u p :
  EvBind u p ∈ snd (clean_old_password ldap hasher user self) →
  password user = "invalid"
  ∧ u = "uid=" +:+ username user +:+ ",ou=people,dc=esmgquadrivium,dc=nl"
  ∧ cleaned_data self !! "old_password" = Some p.
Proof.
  destruct (decide (password user = "invalid")) as [Hsentinel|Hlocal].
  - destruct (cleaned_data self !! "old_password") as [v|] eqn:Hold.
    + rewrite (clean_old_password_ldap hasher user ldap self v Hsentinel Hold). cbn [snd].
      intros H.
      by destruct (try_ldap_bind_binds ldap _ v u p H) as [-> ->].
    + unfold clean_old_password, getitem. rewrite bool_decide_eq_true_2, Hold by done.
      cbn. intros H. by apply elem_of_nil in H.
  - rewrite (clean_old_password_local hasher user ldap self Hlocal).
    unfold PasswordChangeForm_clean_old_password, getitem.
    destruct (cleaned_data self !! "old_password") as [v|]; cbn.
    + destruct (hasher v (password user)); cbn; intros H;
        apply list_elem_of_singleton in H; discriminate.
    + intros H. by apply elem_of_nil in H.
Qed.

(** X3: [clean_old_password] binds only for an account whose stored password
    is "invalid", only as "uid=<username>,ou=people,dc=esmgquadrivium,dc=nl"
    and only with the old password the form holds; two accounts with
    different usernames are never verified as the same directory identity. *)
Theorem clean_old_password_identity
    ldap1 hasher1 user1 self1 ldap2 hasher2 user2 self2 u p1 p2 :
  EvBind u p1 ∈ snd (clean_old_password ldap1 hasher1 user1 self1) →
  EvBind u p2 ∈ snd (clean_old_password ldap2 hasher2 user2 self2) →
  username user1 = username user2
  ∧ password user1 = "invalid"
  ∧ u = "uid=" +:+ username user1 +:+ ",ou=people,dc=esmgquadrivium,dc=nl"
  ∧ cleaned_data self1 !! "old_password" = Some p1.
Proof.
  intros H1 H2.
  destruct (clean_old_password_binds _ _ _ _ _ _ H1) as (Hs1 & Hu1 & Hp1).
  destruct (clean_old_password_binds _ _ _ _ _ _ H2) as (_ & Hu2 & _).
  split; [|done]. rewrite Hu1 in Hu2.
  apply (inj (String.app "uid=")) in Hu2. by apply string_app_inj_r in Hu2.
Qed.

(** X4: an old password left empty never reaches the directory nor the local
    comparison, whatever the account: the required check of the field rejects
    it before [clean_old_password] is called, and the form is invalid. *)
Theorem blank_old_password_rejected ldap hasher password_validators user data :
  QueryDict_get data "old_password" = None ∨ QueryDict_get data "old_password" = Some "" →
  snd (BaseForm_full_clean (MyPasswordChangeForm ldap hasher password_validators user) data)
  = []
  ∧ BaseForm_is_valid (MyPasswordChangeForm ldap hasher password_validators user) data
    = (Ok false, [])
  ∧ ∃ self,
      fst (BaseForm_full_clean (MyPasswordChangeForm ldap hasher password_validators user) data)
      = Ok self
      ∧ errors self !! "old_password" = Some [error_required]
      ∧ cleaned_data self !! "old_password" = None.
Proof.
  intros Hblank.
  destruct (password_form_full_clean password_validators user data) as (rest & Hframe & Hrun).
  unfold BaseForm_is_valid, MyPasswordChangeForm. rewrite Hrun.
  rewrite (required_unanswered (mkField true (CharField false [])) data "old_password"
             eq_refl Hblank).
  destruct (Hframe (add_error (Some "old_password") [error_required] (mkFormState ∅ ∅)))
    as [Hc He].
  destruct (add_error_lookup_eq "old_password" [error_required] (mkFormState ∅ ∅))
    as [Hc' He'].
  rewrite Hc' in Hc. rewrite He' in He. cbn [errors] in He. rewrite lookup_empty in He.
  revert Hc He. generalize (rest (add_error (Some "old_password") [error_required]
                                    (mkFormState ∅ ∅))).
  intros self Hc He. split; [reflexivity|]. split.
  - apply is_valid_of_errors. by eapply errors_lookup_nonempty.
  - exists self. done.
Qed.

(** X5: an account that lives in the directory only changes its password
    with the password the directory accepts: when the bind helper returns
    [True] for the submitted old password and the two new passwords are the
    same acceptable text, the form is valid and holds the three submitted
    texts unchanged; the directory is asked once. *)
Theorem password_change_succeeds ldap hasher password_validators user data old new :
  password user = "invalid" →
  QueryDict_get data "old_password" = Some old →
  old ≠ "" → contains_nul old = false →
  QueryDict_get data "new_password1" = Some new →
  QueryDict_get data "new_password2" = Some new →
  new ≠ "" → contains_nul new = false →
  password_validators (PyStr new) = [] →
  fst (try_ldap_bind ldap
         ("uid=" +:+ username user +:+ ",ou=people,dc=esmgquadrivium,dc=nl") (PyStr old))
  = Ok (PyBool true) →
  BaseForm_is_valid (MyPasswordChangeForm ldap hasher password_validators user) data
  = (Ok true,
     [EvGetConnection;
      EvBind ("uid=" +:+ username user +:+ ",ou=people,dc=esmgquadrivium,dc=nl") (PyStr old);
      EvUnbind])
  ∧ ∃ self,
      fst (BaseForm_full_clean (MyPasswordChangeForm ldap hasher password_validators user) data)
      = Ok self
      ∧ cleaned_data self !! "old_password" = Some (PyStr old)
      ∧ cleaned_data self !! "new_password1" = Some (PyStr new)
      ∧ cleaned_data self !! "new_password2" = Some (PyStr new).
Proof.
  intros Hsentinel Hold Hold1 Hold2 Hnew1 Hnew2 Hn1 Hn2 Hpv Hbound.
  assert (try_ldap_bind ldap
            ("uid=" +:+ username user +:+ ",ou=people,dc=esmgquadrivium,dc=nl") (PyStr old)
          = (Ok (PyBool true),
             [EvGetConnection;
              EvBind ("uid=" +:+ username user +:+ ",ou=people,dc=esmgquadrivium,dc=nl")
                (PyStr old);
              EvUnbind])) as Hbind.
  { revert Hbound. rewrite try_ldap_bind_unfold.
    destruct (connect_error ldap); [discriminate|]. cbn [fst]. by intros ->. }
  assert (BaseForm_full_clean (MyPasswordChangeForm ldap hasher password_validators user) data
          = (Ok (mkFormState
                   (<["new_password2" := PyStr new]>
                      (<["new_password1" := PyStr new]>
                         (<["old_password" := PyStr old]> ∅))) ∅),
             [EvGetConnection;
              EvBind ("uid=" +:+ username user +:+ ",ou=people,dc=esmgquadrivium,dc=nl")
                (PyStr old);
              EvUnbind])) as Hrun.
  { set (form := MyPasswordChangeForm ldap hasher password_validators user).
    assert (∀ st, clean_field form data st
                    ("old_password", mkField true (CharField false []))
                  = (Ok (mkFormState (<["old_password" := PyStr old]> (cleaned_data st))
                                     (errors st)),
                     [EvGetConnection;
                      EvBind ("uid=" +:+ username user
                              +:+ ",ou=people,dc=esmgquadrivium,dc=nl") (PyStr old);
                      EvUnbind])) as Hround1.
    { intros st. unfold clean_field.
      rewrite (password_field_clean data "old_password" old Hold Hold1 Hold2).
      unfold form, MyPasswordChangeForm. cbn [clean_name override_clean_name].
      rewrite bool_decide_eq_true_2 by reflexivity.
      rewrite (clean_old_password_ldap hasher user ldap _ (PyStr old) Hsentinel)
        by apply lookup_insert_eq.
      rewrite Hbind. cbn [fst snd truthy cleaned_data errors].
      by rewrite insert_insert_eq. }
    assert (∀ st, clean_field form data st
                    ("new_password1", mkField true (CharField false []))
                  = (Ok (mkFormState (<["new_password1" := PyStr new]> (cleaned_data st))
                                     (errors st)), [])) as Hround2.
    { intros st. unfold clean_field.
      rewrite (password_field_clean data "new_password1" new Hnew1 Hn1 Hn2).
      unfold form, MyPasswordChangeForm.
      cbn [clean_name override_clean_name PasswordChangeForm].
      rewrite (bool_decide_eq_false_2 ("new_password1" = "old_password")) by discriminate.
      rewrite (bool_decide_eq_false_2 ("new_password1" = "new_password2")) by discriminate.
      reflexivity. }
    assert (∀ st, cleaned_data st !! "new_password1" = Some (PyStr new) →
                  clean_field form data st
                    ("new_password2", mkField true (CharField false []))
                  = (Ok (mkFormState (<["new_password2" := PyStr new]> (cleaned_data st))
                                     (errors st)), [])) as Hround3.
    { intros st Hst. unfold clean_field.
      rewrite (password_field_clean data "new_password2" new Hnew2 Hn1 Hn2).
      unfold form, MyPasswordChangeForm.
      cbn [clean_name override_clean_name PasswordChangeForm].
      rewrite (bool_decide_eq_false_2 ("new_password2" = "old_password")) by discriminate.
      rewrite (bool_decide_eq_true_2 ("new_password2" = "new_password2")) by reflexivity.
      unfold SetPasswordForm_clean_new_password2, dict_get. cbn [cleaned_data].
      rewrite lookup_insert_eq, lookup_insert_ne, Hst by discriminate.
      cbn [default from_option id].
      rewrite (bool_decide_eq_true_2 (PyStr new = PyStr new)) by reflexivity.
      cbn [negb]. rewrite andb_false_r, Hpv.
      change (call (pass ;;; pass ;;; return_ (PyStr new))) with (Ok (PyStr new), @nil event).
      cbv beta iota. by rewrite insert_insert_eq. }
    unfold BaseForm_full_clean, BaseForm_clean_fields.
    change (fields form) with
      [("old_password", mkField true (CharField false []));
       ("new_password1", mkField true (CharField false []));
       ("new_password2", mkField true (CharField false []))].
    rewrite for_cons, Hround1, Py_bind_assoc, Py_bind_trace.
    rewrite for_cons, Hround2, Py_bind_assoc, Py_bind_ok.
    rewrite for_cons, Hround3, Py_bind_assoc, Py_bind_ok
      by (cbn [cleaned_data]; apply lookup_insert_eq).
    cbn [for_]. rewrite Py_ret_eq, Py_bind_ok.
    unfold BaseForm_clean_form.
    change (clean form) with BaseForm_clean.
    change (post_clean form) with BaseForm_post_clean.
    unfold BaseForm_clean, BaseForm_post_clean. rewrite !Py_ret_eq, Py_bind_ok.
    cbn [fst snd cleaned_data errors]. by rewrite app_nil_r. }
  split.
  - unfold BaseForm_is_valid. rewrite Hrun, Py_bind_trace, Py_ret_eq. cbn [fst snd errors].
    rewrite bool_decide_eq_true_2 by reflexivity. by rewrite app_nil_r.
  - rewrite Hrun. eexists. split; [reflexivity|]. cbn [cleaned_data].
    rewrite !lookup_insert_eq.
    rewrite (lookup_insert_ne _ "new_password2" "new_password1") by discriminate.
    rewrite (lookup_insert_ne _ "new_password2" "old_password") by discriminate.
    rewrite (lookup_insert_ne _ "new_password1" "old_password") by discriminate.
    rewrite !lookup_insert_eq. done.
Qed.

(** ** Forms without methods of their own *)

(** When every field passes its own validation the loop records no error. *)
Lemma own_clean_rounds_all_pass data fs : ∀ self,
  (∀ name f, (name, f) ∈ fs → ∃ value, Field_clean f data name = inr value) →
  errors (foldl (own_clean_round data) self fs) = errors self.
Proof.
  induction fs as [|[name f] fs IH]; intros self Hall; [reflexivity|].
  cbn [foldl]. rewrite IH.
  - unfold own_clean_round. cbn [fst snd].
    destruct (Hall name f) as [value ->]; [apply elem_of_cons; by left|]. reflexivity.
  - intros name' f' Hin. apply Hall. apply elem_of_cons. by right.
Qed.

(** The loop records no error exactly when every field passes. *)
Lemma own_clean_rounds_errors_empty data fs cleaned :
  NoDup fs.*1 →
  errors (foldl (own_clean_round data) (mkFormState cleaned ∅) fs) = ∅
  ↔ ∀ name f, (name, f) ∈ fs → ∃ value, Field_clean f data name = inr value.
Proof.
  intros Hnd. split.
  - intros Hempty name f Hin.
    pose proof (own_clean_rounds_field data fs (mkFormState cleaned ∅) name f Hnd Hin) as H.
    destruct (Field_clean f data name) as [errs|value]; [|by eexists].
    destruct H as [_ H]. rewrite Hempty, lookup_empty in H. discriminate.
  - intros Hall. by rewrite own_clean_rounds_all_pass.
Qed.

(** [_post_clean] of a model form leaves no error exactly when there was none
    and the model reports none. *)
Lemma ModelForm_post_clean_empty_iff model_errors self :
  errors (ModelForm_post_clean model_errors self) = ∅
  ↔ errors self = ∅ ∧ model_errors (cleaned_data self) = [].
Proof.
  split.
  - intros Hempty. pose proof (ModelForm_post_clean_valid _ _ Hempty) as Hsame.
    split; [by rewrite <- Hsame|].
    revert Hempty. unfold ModelForm_post_clean.
    destruct (model_errors (cleaned_data self)) as [|e l]; [done|].
    cbn [foldl]. intros Hempty. exfalso. revert Hempty.
    generalize (add_error_errors_nonempty e.1 e.2 self).
    generalize (add_error e.1 e.2 self). clear.
    induction l as [|e l IH]; intros st Hne; [done|].
    cbn [foldl]. apply IH, add_error_errors_nonempty.
  - intros [Hempty Hnone]. unfold ModelForm_post_clean. by rewrite Hnone.
Qed.

(** [_post_clean] of a model form adds no key to [cleaned_data]. *)
Lemma ModelForm_post_clean_keys model_errors self k :
  cleaned_data self !! k = None →
  cleaned_data (ModelForm_post_clean model_errors self) !! k = None.
Proof.
  unfold ModelForm_post_clean. generalize (model_errors (cleaned_data self)).
  intros l. revert self. induction l as [|e l IH]; intros self H; [done|].
  cbn [foldl]. apply IH. unfold add_error. cbn [cleaned_data].
  destruct (decide (default NON_FIELD_ERRORS e.1 = k)) as [->|Hne].
  - apply lookup_delete_eq.
  - by rewrite lookup_delete_ne.
Qed.

(** ** ProfileForm *)

Lemma ProfileForm_full_clean_eq models data :
  BaseForm_full_clean (ProfileForm models) data
  = (Ok (ModelForm_post_clean (Person_errors models)
           (foldl (own_clean_round data) (mkFormState ∅ ∅) (ProfileForm_init models))), []).
Proof.
  unfold BaseForm_full_clean, BaseForm_clean_fields.
  rewrite (clean_fields_no_methods (ProfileForm models) data) by reflexivity.
  rewrite Py_bind_ok. cbn [fields ProfileForm].
  generalize (foldl (own_clean_round data) (mkFormState ∅ ∅) (ProfileForm_init models)).
  intros [cd errs]. reflexivity.
Qed.

Lemma ProfileForm_init_names models :
  (ProfileForm_init models).*1 = ProfileForm_Meta_fields.
Proof. rewrite ProfileForm_init_eq. reflexivity. Qed.

Lemma ProfileForm_Meta_fields_NoDup : NoDup ProfileForm_Meta_fields.
Proof. apply (bool_decide_unpack _). vm_compute. exact I. Qed.

(** X6: validating a profile always completes, and whatever is submitted the
    cleaned data holds nothing but the seven fields of the form: a value
    posted under any other name never reaches the record. *)
Theorem ProfileForm_cleaned_keys models data :
  ∃ self,
    BaseForm_full_clean (ProfileForm models) data = (Ok self, [])
    ∧ BaseForm_is_valid (ProfileForm models) data = (Ok (bool_decide (errors self = ∅)), [])
    ∧ ∀ k, k ∉ ProfileForm_Meta_fields → cleaned_data self !! k = None.
Proof.
  eexists. split; [apply ProfileForm_full_clean_eq|]. split.
  - unfold BaseForm_is_valid. rewrite ProfileForm_full_clean_eq, Py_bind_ok. reflexivity.
  - intros k Hk. apply ModelForm_post_clean_keys.
    rewrite <- (ProfileForm_init_names models) in Hk.
    destruct (own_clean_rounds_other data (ProfileForm_init models) (mkFormState ∅ ∅) k Hk)
      as [-> _].
    apply lookup_empty.
Qed.

(** X7: a profile is valid exactly when each of the seven fields, made
    required, passes its own validation and the model finds no fault with the
    cleaned values; the form adds no other check. *)
Theorem ProfileForm_valid_iff models data :
  BaseForm_is_valid (ProfileForm models) data = (Ok true, [])
  ↔ (∀ name, name ∈ ProfileForm_Meta_fields →
       ∃ value, Field_clean (set_required true (Person_formfield models name)) data name
                = inr value)
    ∧ Person_errors models
        (cleaned_data
           (state_of (BaseForm_clean_fields (ProfileForm models) data (mkFormState ∅ ∅))))
      = [].
Proof.
  unfold BaseForm_is_valid. rewrite ProfileForm_full_clean_eq, Py_bind_ok, Py_ret_eq.
  unfold state_of, BaseForm_clean_fields.
  rewrite (clean_fields_no_methods (ProfileForm models) data) by reflexivity.
  cbn [fst fields ProfileForm].
  assert (errors (foldl (own_clean_round data) (mkFormState ∅ ∅) (ProfileForm_init models)) = ∅
          ↔ ∀ name, name ∈ ProfileForm_Meta_fields →
              ∃ value, Field_clean (set_required true (Person_formfield models name)) data name
                       = inr value) as Hfields.
  { rewrite own_clean_rounds_errors_empty
      by (rewrite ProfileForm_init_names; apply ProfileForm_Meta_fields_NoDup).
    rewrite ProfileForm_init_eq. split.
    - intros H name Hname. apply H. apply list_elem_of_fmap. by exists name.
    - intros H name f Hin. apply list_elem_of_fmap in Hin as (name' & [= -> ->] & Hname).
      by apply H. }
  rewrite <- Hfields.
  generalize (foldl (own_clean_round data) (mkFormState ∅ ∅) (ProfileForm_init models)).
  intros validated. rewrite <- ModelForm_post_clean_empty_iff.
  split.
  - intros [= H]. by apply bool_decide_eq_true in H.
  - intros H. by rewrite bool_decide_eq_true_2.
Qed.

(** ** SubscribeForm *)

(** When the loop of [clean] raises, it raises [KeyError] for one of its
    names, and that name was not a key of [cleaned_data]. *)
Lemma cast_loop_raises names : ∀ self e t,
  for_ names cast_round self = (Exc e, t) →
  ∃ key, key ∈ names ∧ e = KeyError key ∧ cleaned_data self !! key = None.
Proof.
  induction names as [|name names IH]; intros self e t Hrun; [discriminate|].
  cbn [for_] in Hrun. rewrite cast_round_eq in Hrun.
  destruct (cleaned_data self !! name) as [value|] eqn:E.
  - rewrite Py_bind_ok in Hrun.
    destruct (IH _ _ _ Hrun) as (key & Hkey & -> & Hnone). cbn [cleaned_data] in Hnone.
    exists key. split; [apply elem_of_cons; by right|]. split; [done|].
    destruct (decide (name = key)) as [->|Hne].
    + rewrite lookup_insert_eq in Hnone. discriminate.
    + by rewrite lookup_insert_ne in Hnone.
  - rewrite Py_bind_exc in Hrun. injection Hrun as <- <-.
    exists name. split; [apply elem_of_cons; by left|]. done.
Qed.

Lemma yes_no_not_answered data field :
  ¬ (QueryDict_get data field = Some "Yes" ∨ QueryDict_get data field = Some "No") →
  ∃ errs, Field_clean (mkField true (ChoiceField ["Yes"; "No"])) data field = inl errs.
Proof.
  intros Hno.
  destruct (Field_clean (mkField true (ChoiceField ["Yes"; "No"])) data field)
    as [errs|value] eqn:E; [by eexists|].
  destruct (yes_no_clean data field value E) as [[H _]|[H _]]; destruct Hno; auto.
Qed.

(** X8: validating a subscription ends with an exception exactly when one of
    the four boolean-choice fields was answered with anything but "Yes" or
    "No" (nothing, a blank, another text); the exception is then the
    [KeyError] of [clean] for such a field. *)
Theorem SubscribeForm_raises_iff models data :
  ((∃ e, fst (BaseForm_is_valid (SubscribeForm models) data) = Exc e)
   ↔ ∃ field, field ∈ SubscribeForm_Meta_boolean_choices
              ∧ ¬ (QueryDict_get data field = Some "Yes"
                   ∨ QueryDict_get data field = Some "No"))
  ∧ ∀ e, fst (BaseForm_is_valid (SubscribeForm models) data) = Exc e →
         ∃ key, key ∈ SubscribeForm_Meta_boolean_choices
                ∧ e = KeyError key
                ∧ ¬ (QueryDict_get data key = Some "Yes"
                     ∨ QueryDict_get data key = Some "No").
Proof.
  assert (∀ e, fst (BaseForm_is_valid (SubscribeForm models) data) = Exc e →
               ∃ key, key ∈ SubscribeForm_Meta_boolean_choices
                      ∧ e = KeyError key
                      ∧ ¬ (QueryDict_get data key = Some "Yes"
                           ∨ QueryDict_get data key = Some "No")) as Hraises.
  { intros e. unfold BaseForm_is_valid. rewrite SubscribeForm_is_valid_unfold. cbv zeta.
    destruct (for_ SubscribeForm_Meta_boolean_choices cast_round
                (validated_subscription models data)) as [[after|e'] t] eqn:Hloop.
    - rewrite Py_bind_ok. discriminate.
    - destruct (cast_loop_raises _ _ _ _ Hloop) as (key & Hkey & -> & Hnone).
      rewrite Py_bind_exc. cbn [fst]. intros [= <-].
      exists key. split; [done|]. split; [done|]. intros Hanswered.
      destruct (yes_no_answered data key Hanswered) as [value Hvalue].
      pose proof (SubscribeForm_validated_field models data key _
                    (SubscribeForm_boolean_field models key Hkey)) as H.
      rewrite Hvalue in H. destruct H as [H _]. congruence. }
  split; [|exact Hraises]. split.
  - intros [e He]. destruct (Hraises e He) as (key & Hkey & _ & Hno).
    exists key. split; assumption.
  - intros (field & Hfield & Hno).
    destruct (yes_no_not_answered data field Hno) as [errs Herrs].
    destruct (SubscribeForm_clean_KeyError models data field errs Hfield Herrs)
      as (key & _ & Hrun).
    exists (KeyError key). rewrite Hrun. reflexivity.
Qed.

Lemma SubscribeForm_clean_eq self :
  SubscribeForm_clean self =
    match for_ SubscribeForm_Meta_boolean_choices cast_round self with
    | (Ok after, _) => (Ok (after, Some (cleaned_data after)), [])
    | (Exc e, _) => (Exc e, [])
    end.
Proof.
  unfold SubscribeForm_clean.
  pose proof (cast_loop_trace SubscribeForm_Meta_boolean_choices self) as Ht.
  destruct (for_ SubscribeForm_Meta_boolean_choices cast_round self) as [[after|e] t];
    cbn [snd] in Ht; subst t.
  - by rewrite Py_bind_ok.
  - by rewrite Py_bind_exc.
Qed.

(** X9: when [clean] completes it has no effect outside the form, returns the
    form's own [cleaned_data], leaves the errors and every other cleaned value
    as they were, and has replaced the value of each boolean-choice field by
    the boolean [value == 'Yes']. *)
Theorem SubscribeForm_clean_frame self after returned :
  fst (SubscribeForm_clean self) = Ok (after, returned) →
  snd (SubscribeForm_clean self) = []
  ∧ returned = Some (cleaned_data after)
  ∧ errors after = errors self
  ∧ (∀ k, k ∉ SubscribeForm_Meta_boolean_choices →
          cleaned_data after !! k = cleaned_data self !! k)
  ∧ ∀ field, field ∈ SubscribeForm_Meta_boolean_choices →
      ∃ value, cleaned_data self !! field = Some value
               ∧ cleaned_data after !! field = Some (PyBool (py_eq_str value "Yes")).
Proof.
  rewrite SubscribeForm_clean_eq.
  destruct (for_ SubscribeForm_Meta_boolean_choices cast_round self) as [[after'|e] t]
    eqn:Hloop; [|discriminate].
  cbn [fst snd]. intros [= <- <-].
  destruct (cast_loop_ok _ _ _ _ SubscribeForm_boolean_choices_NoDup Hloop)
    as (_ & Herr & Hin & Hout).
  done.
Qed.

(** X10: [clean] is not to be run twice: run on the form it has already
    cleaned, it completes and turns every boolean-choice value to [False],
    also those that were [True], since a boolean is not equal to 'Yes'. *)
Theorem SubscribeForm_clean_twice self once returned :
  fst (SubscribeForm_clean self) = Ok (once, returned) →
  ∃ twice,
    SubscribeForm_clean once = (Ok (twice, Some (cleaned_data twice)), [])
    ∧ ∀ field, field ∈ SubscribeForm_Meta_boolean_choices →
        cleaned_data twice !! field = Some (PyBool false).
Proof.
  rewrite SubscribeForm_clean_eq.
  destruct (for_ SubscribeForm_Meta_boolean_choices cast_round self) as [[once'|e] t]
    eqn:Hloop; [|discriminate].
  cbn [fst]. intros [= <- <-].
  destruct (cast_loop_ok _ _ _ _ SubscribeForm_boolean_choices_NoDup Hloop)
    as (_ & _ & Hin & _).
  destruct (cast_loop_total SubscribeForm_Meta_boolean_choices once') as [twice Htwice].
  { intros field Hfield. destruct (Hin field Hfield) as (value & _ & ->). by eexists. }
  exists twice. rewrite SubscribeForm_clean_eq, Htwice. split; [reflexivity|].
  intros field Hfield.
  destruct (cast_loop_ok _ _ _ _ SubscribeForm_boolean_choices_NoDup Htwice)
    as (_ & _ & Hin' & _).
  destruct (Hin' field Hfield) as (value' & Hvalue' & ->).
  destruct (Hin field Hfield) as (value & _ & Hvalue).
  rewrite Hvalue in Hvalue'. by injection Hvalue' as <-.
Qed.

Lemma state_of_ok (self : FormState) (t : list event) : state_of (Ok self, t) = self.
Proof. reflexivity. Qed.

(** What a required, stripped text field makes of a non-blank text. *)
Lemma text_field_accepts data name s :
  QueryDict_get data name = Some s →
  strip s ≠ "" →
  contains_nul (strip s) = false →
  Field_clean (mkField true (CharField true [])) data name = inr (PyStr (strip s)).
Proof.
  intros Hget Hne Hnul. unfold Field_clean. cbn [kind required]. rewrite Hget.
  unfold CharField_clean. cbn [default from_option id].
  rewrite bool_decide_eq_false_2 by done.
  unfold run_validators. cbn [app omap list_omap]. unfold ProhibitNullCharactersValidator.
  by rewrite Hnul.
Qed.

(** X11: the form fields [preferred_language] and [gender] are plain text
    fields shown as radio buttons: the per-field validation accepts any
    non-blank text for them, stripped of surrounding white space, and does not
    compare it with the choices of the model. *)
Theorem SubscribeForm_text_choices models data name s :
  name ∈ ["preferred_language"; "gender"] →
  QueryDict_get data name = Some s →
  strip s ≠ "" →
  contains_nul (strip s) = false →
  ∃ validated,
    BaseForm_clean_fields (SubscribeForm models) data (mkFormState ∅ ∅) = (Ok validated, [])
    ∧ cleaned_data validated !! name = Some (PyStr (strip s))
    ∧ errors validated !! name = None.
Proof.
  intros Hname Hget Hne Hnul. exists (validated_subscription models data).
  split; [apply SubscribeForm_clean_fields|].
  assert ((name, mkField true (CharField true [])) ∈ SubscribeForm_init models) as Hin.
  { rewrite SubscribeForm_init_eq. cbv zeta.
    apply elem_of_cons in Hname as [->|Hname].
    - apply list_elem_of_lookup. exists 11. reflexivity.
    - apply list_elem_of_singleton in Hname as ->.
      apply list_elem_of_lookup. exists 9. reflexivity. }
  pose proof (SubscribeForm_validated_field models data name _ Hin) as H.
  rewrite (text_field_accepts data name s Hget Hne Hnul) in H. exact H.
Qed.

(** The fields [__init__] has made required. *)
Lemma SubscribeForm_required_field models name f :
  name ∈ SubscribeForm_Meta_required →
  (name, f) ∈ SubscribeForm_init models →
  required f = true.
Proof.
  intros Hname Hin.
  rewrite SubscribeForm_init_eq in Hin. cbv zeta in Hin.
  repeat (apply elem_of_cons in Hin as [Heq|Hin];
          [injection Heq as -> ->;
           first [ reflexivity
                 | exfalso; apply (bool_decide_pack _) in Hname;
                   vm_compute in Hname; exact Hname ]|]).
  apply elem_of_nil in Hin. destruct Hin.
Qed.

(** X12: every field named in [Meta.required] is required on the form,
    whatever the model says, and a subscription that leaves one of them out is
    never accepted: the field's required error is recorded, and the form is
    reported invalid whenever the four boolean-choice fields were answered. *)
Theorem SubscribeForm_required models data name f :
  name ∈ SubscribeForm_Meta_required →
  (name, f) ∈ SubscribeForm_init models →
  required f = true
  ∧ (unanswered f data name →
     errors (state_of (BaseForm_clean_fields (SubscribeForm models) data (mkFormState ∅ ∅)))
       !! name = Some [error_required]
     ∧ fst (BaseForm_is_valid (SubscribeForm models) data) ≠ Ok true
     ∧ ((∀ choice, choice ∈ SubscribeForm_Meta_boolean_choices →
           QueryDict_get data choice = Some "Yes" ∨ QueryDict_get data choice = Some "No") →
        BaseForm_is_valid (SubscribeForm models) data = (Ok false, []))).
Proof.
  intros Hname Hin.
  pose proof (SubscribeForm_required_field models name f Hname Hin) as Hreq.
  split; [exact Hreq|]. intros Hblank.
  pose proof (SubscribeForm_validated_field models data name f Hin) as H.
  rewrite (required_unanswered f data name Hreq Hblank) in H. destruct H as [_ Herr].
  pose proof (errors_lookup_nonempty _ _ _ Herr) as Hne.
  destruct (SubscribeForm_invalid models data Hne) as [Hnever Hfalse].
  split; [|split; [exact Hnever|]].
  - rewrite SubscribeForm_clean_fields, state_of_ok. exact Herr.
  - intros Hanswered.
    destruct (cast_loop_total SubscribeForm_Meta_boolean_choices
                (validated_subscription models data)) as [after Hloop].
    { intros choice Hchoice.
      destruct (yes_no_answered data choice (Hanswered choice Hchoice)) as [value Hvalue].
      pose proof (SubscribeForm_validated_field models data choice _
                    (SubscribeForm_boolean_field models choice Hchoice)) as H.
      rewrite Hvalue in H. destruct H as [-> _]. eexists; reflexivity. }
    exact (Hfalse after [] Hloop).
Qed.

(** X13: a subscription is valid exactly when every field of the form passes
    its own validation, and the model finds no fault with the cleaned values
    as [clean] returns them (the four choices as booleans); the form adds no
    other check. *)
Theorem SubscribeForm_valid_iff models data :
  BaseForm_is_valid (SubscribeForm models) data = (Ok true, [])
  ↔ (∀ name f, (name, f) ∈ SubscribeForm_init models →
       ∃ value, Field_clean f data name = inr value)
    ∧ ∃ cast,
        fst (SubscribeForm_clean
               (state_of (BaseForm_clean_fields (SubscribeForm models) data
                            (mkFormState ∅ ∅))))
        = Ok (cast, Some (cleaned_data cast))
        ∧ MembershipRequest_errors models (cleaned_data cast) = [].
Proof.
  unfold BaseForm_is_valid.
  rewrite SubscribeForm_is_valid_unfold, SubscribeForm_clean_fields, state_of_ok. cbv zeta.
  rewrite SubscribeForm_clean_eq.
  rewrite <- (own_clean_rounds_errors_empty data (SubscribeForm_init models) ∅)
    by (rewrite SubscribeForm_init_names; apply SubscribeForm_Meta_fields_NoDup).
  pose proof (add_error_errors_nonempty None) as Hadd. revert Hadd.
  generalize (validated_subscription models data). intros validated Hadd.
  destruct (for_ SubscribeForm_Meta_boolean_choices cast_round validated)
    as [[after|e] t] eqn:Hloop.
  - destruct (cast_loop_ok _ _ _ _ SubscribeForm_boolean_choices_NoDup Hloop)
      as (_ & Hsame & _).
    rewrite Py_bind_ok, Py_ret_eq. cbn [fst]. split.
    + intros [= H]. apply bool_decide_eq_true in H.
      apply ModelForm_post_clean_empty_iff in H as [H1 H2].
      split; [by rewrite <- Hsame|]. exists after. done.
    + intros (Hvalid & cast & [= <-] & Hmodel).
      rewrite bool_decide_eq_true_2; [reflexivity|].
      apply ModelForm_post_clean_empty_iff. split; [by rewrite Hsame|done].
  - split.
    + destruct e as [errs| | |]; [|rewrite Py_bind_exc; discriminate..].
      rewrite Py_bind_ok, Py_ret_eq. intros [= H]. apply bool_decide_eq_true in H.
      exfalso. revert H. apply ModelForm_post_clean_errors_nonempty, Hadd.
    + intros (_ & cast & Hcast & _). discriminate.
Qed.

(** X14: whatever is submitted, when the validation of a subscription
    completes the cleaned data holds no key but the fields named in
    [Meta.fields]. *)
Theorem SubscribeForm_cleaned_keys models data self k :
  fst (BaseForm_full_clean (SubscribeForm models) data) = Ok self →
  k ∉ SubscribeForm_Meta_fields →
  cleaned_data self !! k = None.
Proof.
  rewrite SubscribeForm_is_valid_unfold. cbv zeta. intros Hrun Hk.
  assert (cleaned_data (validated_subscription models data) !! k = None) as Hnone.
  { rewrite <- (SubscribeForm_init_names models) in Hk.
    destruct (own_clean_rounds_other data (SubscribeForm_init models) (mkFormState ∅ ∅) k Hk)
      as [-> _].
    apply lookup_empty. }
  assert (k ∉ SubscribeForm_Meta_boolean_choices) as Hk'.
  { intros Hin. apply Hk. unfold SubscribeForm_Meta_boolean_choices in Hin.
    repeat (apply elem_of_cons in Hin as [->|Hin];
            [apply (bool_decide_unpack _); vm_compute; exact I|]).
    apply elem_of_nil in Hin. destruct Hin. }
  revert Hrun Hnone. generalize (validated_subscription models data). intros validated.
  destruct (for_ SubscribeForm_Meta_boolean_choices cast_round validated)
    as [[after|e] t] eqn:Hloop.
  - destruct (cast_loop_ok _ _ _ _ SubscribeForm_boolean_choices_NoDup Hloop)
      as (_ & _ & _ & Hout).
    cbn [fst]. intros [= <-] Hnone. apply ModelForm_post_clean_keys.
    by rewrite (Hout k Hk').
  - destruct e as [errs| | |]; cbn [fst]; [|discriminate..].
    intros [= <-] Hnone. apply ModelForm_post_clean_keys.
    unfold add_error. cbn [cleaned_data default from_option].
    destruct (decide (NON_FIELD_ERRORS = k)) as [<-|Hne].
    + apply lookup_delete_eq.
    + by rewrite lookup_delete_ne.
Qed.

(** ** ProcessMembershipRequestForm *)

(** X15: validating a membership request always completes, without touching
    the directory, and the request is valid exactly when the username passes
    the validation of its field and is no account yet, the person-id passes
    the validation of its field and is not used yet, and the selection of
    instruments (possibly empty) names instruments only. *)
Theorem ProcessMembershipRequestForm_valid_iff models db data :
  (∃ valid, BaseForm_is_valid (ProcessMembershipRequestForm models db) data = (Ok valid, []))
  ∧ (BaseForm_is_valid (ProcessMembershipRequestForm models db) data = (Ok true, [])
     ↔ (∃ username,
          Field_clean (mkField true (CharField true [UsernameValidator models])) data "username"
          = inr username
          ∧ User_exists db username = false)
       ∧ (∃ person_id,
            Field_clean (mkField true (CharField true [])) data "person_id" = inr person_id
            ∧ Person_exists db person_id = false)
       ∧ ∃ instruments,
           Field_clean
             (mkField false
                (ModelMultipleChoiceField (Instrument_pks db) (Instrument_valid_pk models)))
             data "instruments"
           = inr instruments).
Proof.
  destruct (ProcessMembershipRequestForm_outcome models db data)
    as (self & Hrun & Hu & Hp & Hi & Hvalid).
  unfold BaseForm_is_valid. rewrite Hrun, Py_bind_ok, Py_ret_eq.
  split; [by eexists|]. split.
  - intros [= H]. apply bool_decide_eq_true in H.
    rewrite H, lookup_empty in Hu, Hp, Hi.
    split; [|split].
    + destruct (Field_clean _ data "username") as [errs|value]; [discriminate|].
      destruct (User_exists db value) eqn:E; [discriminate|]. by exists value.
    + destruct (Field_clean _ data "person_id") as [errs|value]; [discriminate|].
      destruct (Person_exists db value) eqn:E; [discriminate|]. by exists value.
    + destruct (Field_clean _ data "instruments") as [errs|value]; [discriminate|].
      by exists value.
  - intros ((u & Hcu & Hfu) & (p & Hcp & Hfp) & (i & Hci)).
    rewrite Hcu, Hfu in Hu. rewrite Hcp, Hfp in Hp. rewrite Hci in Hi.
    injection Hu as _ Hu. injection Hp as _ Hp. injection Hi as _ Hi.
    by rewrite bool_decide_eq_true_2 by by apply Hvalid.
Qed.

(** X16: the fields of a membership request are judged independently: a
    request whose username is taken and whose person-id is used reports both
    errors, each under its own field, and keeps neither value. *)
Theorem ProcessMembershipRequestForm_both_errors models db data username person_id :
  Field_clean (mkField true (CharField true [UsernameValidator models])) data "username"
  = inr username →
  User_exists db username = true →
  Field_clean (mkField true (CharField true [])) data "person_id" = inr person_id →
  Person_exists db person_id = true →
  ∃ self,
    BaseForm_full_clean (ProcessMembershipRequestForm models db) data = (Ok self, [])
    ∧ errors self !! "username" = Some [username_exists]
    ∧ errors self !! "person_id" = Some [Person_not_unique models]
    ∧ cleaned_data self !! "username" = None
    ∧ cleaned_data self !! "person_id" = None.
Proof.
  intros Hcu Hfu Hcp Hfp.
  destruct (ProcessMembershipRequestForm_outcome models db data)
    as (self & Hrun & Hu & Hp & _).
  rewrite Hcu, Hfu in Hu. rewrite Hcp, Hfp in Hp.
  injection Hu as Hu1 Hu2. injection Hp as Hp1 Hp2.
  exists self. done.
Qed.

(** X17: a username its own field rejects (blank, or refused by the username
    validator) is reported with the errors of the field alone: [clean_username]
    is not called, so the message that the user already exists is not added
    by it, whether or not such an account exists. *)
Theorem ProcessMembershipRequestForm_username_format_first models db data errs :
  Field_clean (mkField true (CharField true [UsernameValidator models])) data "username"
  = inl errs →
  ∃ self,
    BaseForm_full_clean (ProcessMembershipRequestForm models db) data = (Ok self, [])
    ∧ errors self !! "username" = Some errs
    ∧ ∀ db',
        errors (state_of (BaseForm_full_clean (ProcessMembershipRequestForm models db') data))
          !! "username" = Some errs.
Proof.
  intros Hclean.
  destruct (ProcessMembershipRequestForm_outcome models db data)
    as (self & Hrun & Hu & _).
  rewrite Hclean in Hu. injection Hu as _ Hu.
  exists self. split; [done|]. split; [done|]. intros db'.
  destruct (ProcessMembershipRequestForm_outcome models db' data)
    as (self' & Hrun' & Hu' & _).
  rewrite Hrun', state_of_ok. rewrite Hclean in Hu'. by injection Hu' as _ Hu'.
Qed.

(** ** The [clean_<name>] methods outside [_clean_fields] *)

(** X18: each of the three [clean_<name>] methods reads the cleaned value of
    its field first: on a form that holds none (the field failed, or has not
    been validated yet) it raises [KeyError] naming the field, before the
    directory, the local password check or the database is consulted. *)
Theorem clean_methods_missing_key ldap hasher user models db self :
  (cleaned_data self !! "old_password" = None →
   clean_old_password ldap hasher user self = (Exc (KeyError "old_password"), []))
  ∧ (cleaned_data self !! "username" = None →
     clean_username db self = (Exc (KeyError "username"), []))
  ∧ (cleaned_data self !! "person_id" = None →
     clean_person_id models db self = (Exc (KeyError "person_id"), [])).
Proof.
  split; [|split]; intros Hnone.
  - unfold clean_old_password, PasswordChangeForm_clean_old_password, getitem.
    rewrite Hnone. by case_bool_decide.
  - unfold clean_username, getitem. by rewrite Hnone.
  - unfold clean_person_id, getitem. by rewrite Hnone.
Qed.

(** * The further properties at work on the sample data *)

(** A directory that cannot be reached. *)
Lemma try_ldap_bind_connect_failure_sample :
  try_ldap_bind
    (mkDirectory (Some (OtherException "LDAPSocketOpenError")) "cn=tutti" (PyStr "service")
       (λ _ _, None))
    "uid=ada" (PyStr "secret")
  = (Exc (OtherException "LDAPSocketOpenError"), [EvGetConnection]).
Proof.
  apply (try_ldap_bind_connect_failure
           (mkDirectory (Some (OtherException "LDAPSocketOpenError")) "cn=tutti"
              (PyStr "service") (λ _ _, None))
           "uid=ada" (PyStr "secret") (OtherException "LDAPSocketOpenError")).
  reflexivity.
Defined.

(** The same account, verified twice. *)
Lemma clean_old_password_identity_sample :
  username sample_ldap_user = username sample_ldap_user
  ∧ password sample_ldap_user = "invalid"
  ∧ "uid=ada,ou=people,dc=esmgquadrivium,dc=nl"
    = "uid=" +:+ username sample_ldap_user +:+ ",ou=people,dc=esmgquadrivium,dc=nl"
  ∧ cleaned_data (mkFormState {["old_password" := PyStr "wrong"]} ∅) !! "old_password"
    = Some (PyStr "wrong").
Proof.
  apply (clean_old_password_identity
           sample_directory sample_hasher sample_ldap_user
           (mkFormState {["old_password" := PyStr "wrong"]} ∅)
           sample_directory_down sample_hasher sample_ldap_user
           (mkFormState {["old_password" := PyStr "secret"]} ∅)
           "uid=ada,ou=people,dc=esmgquadrivium,dc=nl" (PyStr "wrong") (PyStr "secret")).
  - vm_compute. apply elem_of_cons. right. apply elem_of_cons. left. reflexivity.
  - vm_compute. apply elem_of_cons. right. apply elem_of_cons. left. reflexivity.
Defined.

(** A password change with the old password left empty. *)
Lemma blank_old_password_rejected_sample :
  BaseForm_is_valid
    (MyPasswordChangeForm sample_directory sample_hasher sample_password_validators
       sample_ldap_user)
    (sample_password_change "")
  = (Ok false, []).
Proof.
  apply (blank_old_password_rejected sample_directory sample_hasher
           sample_password_validators sample_ldap_user (sample_password_change "")).
  right. vm_compute. reflexivity.
Defined.

(** A password change with the password the sample directory accepts. *)
Lemma password_change_succeeds_sample :
  BaseForm_is_valid
    (MyPasswordChangeForm sample_directory sample_hasher sample_password_validators
       sample_ldap_user)
    (sample_password_change "correct horse")
  = (Ok true,
     [EvGetConnection;
      EvBind ("uid=" +:+ username sample_ldap_user +:+ ",ou=people,dc=esmgquadrivium,dc=nl")
        (PyStr "correct horse");
      EvUnbind]).
Proof.
  apply (password_change_succeeds sample_directory sample_hasher sample_password_validators
           sample_ldap_user (sample_password_change "correct horse")
           "correct horse" "battery staple").
  - reflexivity.
  - vm_compute. reflexivity.
  - discriminate.
  - reflexivity.
  - vm_compute. reflexivity.
  - vm_compute. reflexivity.
  - discriminate.
  - reflexivity.
  - reflexivity.
  - vm_compute. reflexivity.
Defined.

(** A wrong password binds as the identity of the account and as nothing
    else. *)
Lemma try_ldap_bind_credentials_sample :
  "uid=ada" = "uid=ada" ∧ PyStr "secret" = PyStr "secret".
Proof.
  apply (proj1 (try_ldap_bind_credentials sample_directory_down "uid=ada" (PyStr "secret"))).
  vm_compute. apply elem_of_cons. right. apply elem_of_cons. left. reflexivity.
Defined.

(** A profile that is complete. *)
Lemma ProfileForm_valid_iff_sample :
  BaseForm_is_valid (ProfileForm sample_models)
    (<["email" := ["ada@example.org"]]> sample_profile)
  = (Ok true, []).
Proof.
  apply (ProfileForm_valid_iff sample_models
           (<["email" := ["ada@example.org"]]> sample_profile)).
  split.
  - intros name Hname. unfold ProfileForm_Meta_fields in Hname.
    repeat (apply elem_of_cons in Hname as [->|Hname];
            [eexists; vm_compute; reflexivity|]).
    apply elem_of_nil in Hname. destruct Hname.
  - reflexivity.
Defined.

(** The subscription without an answer to [is_student]. *)
Lemma SubscribeForm_raises_iff_sample :
  ∃ field, field ∈ SubscribeForm_Meta_boolean_choices
           ∧ ¬ (QueryDict_get sample_subscription_unanswered field = Some "Yes"
                ∨ QueryDict_get sample_subscription_unanswered field = Some "No").
Proof.
  apply (proj1 (SubscribeForm_raises_iff sample_models sample_subscription_unanswered)).
  exists (KeyError "is_student"). vm_compute. reflexivity.
Defined.

(** [clean] on a form that holds a first name and the four answers. *)
Lemma SubscribeForm_clean_frame_sample :
  cleaned_data
    (mkFormState
       (list_to_map
          [("first_name", PyStr "Ada"); ("is_student", PyBool true);
           ("photo_video_consent_external_group", PyBool false);
           ("photo_video_consent_external", PyBool true);
           ("photo_video_consent_internal", PyBool false)]) ∅)
  !! "first_name"
  = cleaned_data
      (mkFormState
         (list_to_map
            [("first_name", PyStr "Ada"); ("is_student", PyStr "Yes");
             ("photo_video_consent_external_group", PyStr "No");
             ("photo_video_consent_external", PyStr "Yes");
             ("photo_video_consent_internal", PyStr "No")]) ∅)
    !! "first_name".
Proof.
  destruct (SubscribeForm_clean_frame
              (mkFormState
                 (list_to_map
                    [("first_name", PyStr "Ada"); ("is_student", PyStr "Yes");
                     ("photo_video_consent_external_group", PyStr "No");
                     ("photo_video_consent_external", PyStr "Yes");
                     ("photo_video_consent_internal", PyStr "No")]) ∅)
              (mkFormState
                 (list_to_map
                    [("first_name", PyStr "Ada"); ("is_student", PyBool true);
                     ("photo_video_consent_external_group", PyBool false);
                     ("photo_video_consent_external", PyBool true);
                     ("photo_video_consent_internal", PyBool false)]) ∅)
              (Some (list_to_map
                       [("first_name", PyStr "Ada"); ("is_student", PyBool true);
                        ("photo_video_consent_external_group", PyBool false);
                        ("photo_video_consent_external", PyBool true);
                        ("photo_video_consent_internal", PyBool false)])))
    as (_ & _ & _ & Hother & _).
  - vm_compute. reflexivity.
  - apply Hother. apply (bool_decide_unpack _). vm_compute. exact I.
Defined.

(** [clean] run again on the form it has cleaned. *)
Lemma SubscribeForm_clean_twice_sample :
  ∃ twice,
    SubscribeForm_clean
      (mkFormState
         (list_to_map
            [("first_name", PyStr "Ada"); ("is_student", PyBool true);
             ("photo_video_consent_external_group", PyBool false);
             ("photo_video_consent_external", PyBool true);
             ("photo_video_consent_internal", PyBool false)]) ∅)
    = (Ok (twice, Some (cleaned_data twice)), [])
    ∧ ∀ field, field ∈ SubscribeForm_Meta_boolean_choices →
        cleaned_data twice !! field = Some (PyBool false).
Proof.
  apply (SubscribeForm_clean_twice
           (mkFormState
              (list_to_map
                 [("first_name", PyStr "Ada"); ("is_student", PyStr "Yes");
                  ("photo_video_consent_external_group", PyStr "No");
                  ("photo_video_consent_external", PyStr "Yes");
                  ("photo_video_consent_internal", PyStr "No")]) ∅)
           (mkFormState
              (list_to_map
                 [("first_name", PyStr "Ada"); ("is_student", PyBool true);
                  ("photo_video_consent_external_group", PyBool false);
                  ("photo_video_consent_external", PyBool true);
                  ("photo_video_consent_internal", PyBool false)]) ∅)
           (Some (list_to_map
                    [("first_name", PyStr "Ada"); ("is_student", PyBool true);
                     ("photo_video_consent_external_group", PyBool false);
                     ("photo_video_consent_external", PyBool true);
                     ("photo_video_consent_internal", PyBool false)]))).
  vm_compute. reflexivity.
Defined.

(** A gender that is none of the choices, written between an em space and a
    no-break space: the cleaned value is the word. *)
Lemma SubscribeForm_text_choices_sample :
  ∃ validated,
    BaseForm_clean_fields (SubscribeForm sample_models)
      sample_subscription_accented_gender (mkFormState ∅ ∅)
    = (Ok validated, [])
    ∧ cleaned_data validated !! "gender"
      = Some (PyStr (strip (chr 0x2003 +:+ "Voilà" +:+ chr 0xA0)))
    ∧ errors validated !! "gender" = None.
Proof.
  apply (SubscribeForm_text_choices sample_models
           sample_subscription_accented_gender "gender"
           (chr 0x2003 +:+ "Voilà" +:+ chr 0xA0)).
  - apply elem_of_cons. right. apply elem_of_cons. left. reflexivity.
  - vm_compute. reflexivity.
  - vm_compute. discriminate.
  - vm_compute. reflexivity.
Defined.

(** A subscription without a first name. *)
Lemma SubscribeForm_required_sample :
  BaseForm_is_valid (SubscribeForm sample_models) (delete "first_name" sample_subscription)
  = (Ok false, []).
Proof.
  destruct (SubscribeForm_required sample_models (delete "first_name" sample_subscription)
              "first_name"
              (set_required true (MembershipRequest_formfield sample_models "first_name")))
    as (_ & Hrejects).
  - apply elem_of_cons. left. reflexivity.
  - rewrite SubscribeForm_init_eq. apply elem_of_cons. left. reflexivity.
  - destruct Hrejects as (_ & _ & Hfalse).
    + left. vm_compute. reflexivity.
    + apply Hfalse. intros choice Hchoice. unfold SubscribeForm_Meta_boolean_choices in Hchoice.
      repeat (apply elem_of_cons in Hchoice as [->|Hchoice];
              [first [ left; vm_compute; reflexivity | right; vm_compute; reflexivity ]|]).
      apply elem_of_nil in Hchoice. destruct Hchoice.
Defined.

(** The complete subscription, with an accented gender between white space. *)
Lemma SubscribeForm_valid_iff_sample :
  (∀ name f, (name, f) ∈ SubscribeForm_init sample_models →
     ∃ value, Field_clean f sample_subscription_accented_gender name = inr value)
  ∧ ∃ cast,
      fst (SubscribeForm_clean
             (state_of (BaseForm_clean_fields (SubscribeForm sample_models)
                          sample_subscription_accented_gender (mkFormState ∅ ∅))))
      = Ok (cast, Some (cleaned_data cast))
      ∧ MembershipRequest_errors sample_models (cleaned_data cast) = [].
Proof.
  apply (SubscribeForm_valid_iff sample_models sample_subscription_accented_gender).
  vm_compute. reflexivity.
Defined.

(** A subscription that posts a field the form does not have. *)
Lemma SubscribeForm_cleaned_keys_sample :
  cleaned_data
    (state_of (BaseForm_full_clean (SubscribeForm sample_models)
                 (<["is_superuser" := ["1"]]> sample_subscription)))
  !! "is_superuser" = None.
Proof.
  apply (SubscribeForm_cleaned_keys sample_models
           (<["is_superuser" := ["1"]]> sample_subscription)).
  - vm_compute. reflexivity.
  - apply (bool_decide_unpack _). vm_compute. exact I.
Defined.

(** The fresh membership request. *)
Lemma ProcessMembershipRequestForm_valid_iff_sample :
  BaseForm_is_valid (ProcessMembershipRequestForm sample_models sample_db) sample_request
  = (Ok true, []).
Proof.
  apply (proj2 (ProcessMembershipRequestForm_valid_iff sample_models sample_db sample_request)).
  split; [|split]; eexists; vm_compute; split; reflexivity || reflexivity.
Defined.

(** A membership request for a taken username and a used person-id, the one
    followed by a no-break space and the other by an em space. *)
Lemma ProcessMembershipRequestForm_both_errors_sample :
  ∃ self,
    BaseForm_full_clean (ProcessMembershipRequestForm sample_models sample_db)
      (list_to_map [("username", ["alice" +:+ chr 0xA0]);
                    ("person_id", ["1001" +:+ chr 0x2003])])
    = (Ok self, [])
    ∧ errors self !! "username" = Some [username_exists]
    ∧ errors self !! "person_id" = Some [Person_not_unique sample_models]
    ∧ cleaned_data self !! "username" = None
    ∧ cleaned_data self !! "person_id" = None.
Proof.
  apply (ProcessMembershipRequestForm_both_errors sample_models sample_db
           (list_to_map [("username", ["alice" +:+ chr 0xA0]);
                         ("person_id", ["1001" +:+ chr 0x2003])])
           (PyStr "alice") (PyStr "1001")).
  - vm_compute. reflexivity.
  - vm_compute. reflexivity.
  - vm_compute. reflexivity.
  - vm_compute. reflexivity.
Defined.

(** A membership request whose username is an em space only. *)
Lemma ProcessMembershipRequestForm_username_format_first_sample :
  ∃ self,
    BaseForm_full_clean (ProcessMembershipRequestForm sample_models sample_db)
      (list_to_map [("username", [chr 0x2003]); ("person_id", ["1002"])])
    = (Ok self, [])
    ∧ errors self !! "username" = Some [error_required]
    ∧ ∀ db',
        errors (state_of (BaseForm_full_clean
                            (ProcessMembershipRequestForm sample_models db')
                            (list_to_map [("username", [chr 0x2003]);
                                          ("person_id", ["1002"])])))
          !! "username" = Some [error_required].
Proof.
  apply (ProcessMembershipRequestForm_username_format_first sample_models sample_db
           (list_to_map [("username", [chr 0x2003]); ("person_id", ["1002"])])
           [error_required]).
  vm_compute. reflexivity.
Defined.

(** The methods on a form that holds nothing. *)
Lemma clean_methods_missing_key_sample :
  clean_username sample_db (mkFormState ∅ ∅) = (Exc (KeyError "username"), []).
Proof.
  apply (clean_methods_missing_key sample_directory sample_hasher sample_ldap_user
           sample_models sample_db (mkFormState ∅ ∅)).
  reflexivity.
Defined.
